(** * grater_expectations: configuration checks and template rendering

    A shallow embedding of [initialize_project.py]: the two configuration
    validators ([evaluate_config_keys], [evaluate_global_config]), the part of
    [main_program] that calls them, and the three renderers that write the
    ECR build script, the Terraform variable files and the Terraform provider
    file.  The second part adds the loading of the two sections, the
    document of [generate_ge_config] and, in module [Fs], the functions that
    write over an [open] that can fail: [generate_project_config], the three
    renderers again and steps 7 to 9 of [main_program].

    Modelling choices.
    - A configuration is what [yaml.safe_load] returns for a mapping: a Python
      dict, kept as an association list in insertion order (the order in which
      [cfg.items()] yields, which is the order of the reported lists).  Keys
      are strings; values are the JSON-like part of YAML (None, bool, int,
      float, str, list, dict).
    - [logger] calls and [open(...).write(...)] are effects on a [world]:
      the records logged so far and the files written so far.  A function of
      the source is a computation in the monad [M], which threads the world
      and may raise.
    - The f-strings of diagnostics (log records, exception arguments) are kept
      as their parts, literal text and interpolated values, so that the list
      of keys an error reports can be read back.  The f-strings of the
      rendered documents are flattened to text, as the files hold them. *)

From Stdlib Require Import String Ascii List ZArith Bool Lia.
From Stdlib Require Import Permutation.
From Stdlib Require Import DecimalString.
From Stdlib Require Import Floats.SpecFloat.
Import ListNotations.

#[local] Set Warnings "-register-all".

Local Open Scope string_scope.
Local Open Scope list_scope.

(** ** Values and dicts *)

Inductive value : Type :=
| VNone
| VBool (b : bool)
| VInt (n : Z)
| VFloat (f : spec_float)
| VStr (s : string)
| VList (elems : list value)
| VDict (entries : list (string * value)).

(** A dict with string keys, in insertion order. *)
Definition dict : Type := list (string * value).

(** [cfg.keys()] and [cfg.items()]. *)
Definition keys (cfg : dict) : list string := map fst cfg.
Definition items (cfg : dict) : list (string * value) := cfg.

(** A Python dict holds each key once. *)
Definition dict_wf (cfg : dict) : Prop := NoDup (keys cfg).

(** Python truth value: [not v] is [negb (truthy v)]. *)
Definition truthy (v : value) : bool :=
  match v with
  | VNone => false
  | VBool b => b
  | VInt n => negb (n =? 0)%Z
  | VFloat (S754_zero _) => false
  | VFloat _ => true
  | VStr EmptyString => false
  | VStr _ => true
  | VList [] => false
  | VList _ => true
  | VDict [] => false
  | VDict _ => true
  end.

(** [key in cfg.keys()]. *)
Definition contains (cfg : dict) (key : string) : bool :=
  existsb (fun k => k =? key) (keys cfg).

(** The entry found for [key], if any. *)
Fixpoint lookup (cfg : dict) (key : string) : option value :=
  match cfg with
  | [] => None
  | (k, v) :: rest => if k =? key then Some v else lookup rest key
  end.

(** [v == s] for a str [s]: only a str compares equal to a str. *)
Definition eq_str (v : value) (s : string) : bool :=
  match v with
  | VStr t => t =? s
  | _ => false
  end.

(** ** Diagnostics, exceptions and the world *)

(** One part of an f-string used in a diagnostic. *)
Inductive part : Type :=
| Text (s : string)          (* literal text *)
| Subst (s : string)         (* an interpolated str *)
| Keys (ks : list string).   (* an interpolated list of keys *)

Definition message : Type := list part.

Inductive exc_class : Type :=
| KeyError | ValueError
| FileNotFoundError | NotADirectoryError | IsADirectoryError | PermissionError.

Inductive exception : Type :=
| Exc (cls : exc_class) (arg : message).

(** The keys an exception names: those of the lists interpolated in its
    argument. *)
Fixpoint message_keys (m : message) : list string :=
  match m with
  | [] => []
  | Keys ks :: rest => ks ++ message_keys rest
  | _ :: rest => message_keys rest
  end.

Definition reported_keys (e : exception) : list string :=
  match e with Exc _ arg => message_keys arg end.

Inductive level : Type := INFO | WARNING.

Record world : Type := mkWorld {
  log : list (level * message);           (* records emitted by [logger] *)
  files : list (string * string);         (* [open(path, "w").write(text)], in order *)
  listdir : string -> option (list string); (* [os.listdir]; None: no such directory *)
  abspath : string -> string              (* [os.path.abspath], fixed by the cwd *)
}.

Inductive outcome (A : Type) : Type :=
| Return (a : A)
| Raise (e : exception).
Arguments Return {A} a.
Arguments Raise {A} e.

(** A computation: from a world to an outcome and the world it leaves. *)
Definition M (A : Type) : Type := world -> outcome A * world.

Definition ret {A} (a : A) : M A := fun w => (Return a, w).

Definition raise {A} (e : exception) : M A := fun w => (Raise e, w).

Definition bind {A B} (m : M A) (k : A -> M B) : M B :=
  fun w =>
    match m w with
    | (Return a, w') => k a w'
    | (Raise e, w') => (Raise e, w')
    end.

Definition lift {A} (o : outcome A) : M A := fun w => (o, w).

Declare Scope py_scope.
Delimit Scope py_scope with py.
Notation "x <- c1 ;; c2" := (bind c1 (fun x => c2))
  (at level 61, c1 at next level, right associativity) : py_scope.
Notation "c1 ;; c2" := (bind c1 (fun _ => c2))
  (at level 61, right associativity) : py_scope.
Local Open Scope py_scope.

Definition emit (l : level) (m : message) : M unit :=
  fun w => (Return tt, mkWorld (log w ++ [(l, m)]) (files w) (listdir w) (abspath w)).

(** The root logger is set to level INFO: both calls emit. *)
Definition logger_info (m : message) : M unit := emit INFO m.
Definition logger_warning (m : message) : M unit := emit WARNING m.

(** [cfg[key]]: raises [KeyError(key)] on an absent key. *)
Definition getitem (cfg : dict) (key : string) : outcome value :=
  match lookup cfg key with
  | Some v => Return v
  | None => Raise (Exc KeyError [Subst key])
  end.

(** ** The validators *)

Definition evaluate_config_keys (cfg : dict) (list_keys : list string)
    (config_name : string) : M unit :=
  (* -- 1. Check for missing keys *)
  logger_info [Text "Checking if required keys can be found in the ";
               Subst config_name; Text " config"] ;;
  let missing_keys := filter (fun key => negb (contains cfg key)) list_keys in
  (if (0 <? length missing_keys)%nat then
     logger_warning [Text "Not all keys found in "; Subst config_name;
                     Text " config. Missing: "; Keys missing_keys] ;;
     raise (Exc KeyError
              [Text "The "; Subst config_name;
               Text " configuration is missing the following arguments: ";
               Keys missing_keys])
   else ret tt) ;;
  (* -- 2. Check for missing values *)
  let missing_values :=
    map fst (filter (fun kv => negb (fst kv =? "site_bucket_prefix"))
               (filter (fun kv => negb (truthy (snd kv))) (items cfg))) in
  if (0 <? length missing_values)%nat then
    logger_warning [Text "Not all keys found in "; Subst config_name;
                    Text " have values. Missing: "; Keys missing_values] ;;
    raise (Exc KeyError
             [Text "The "; Subst config_name;
              Text " configuration is missing values for the following arguments: ";
              Keys missing_values])
  else ret tt.

Definition DEFAULT : string := "MUST_BE_SET".

(** The [for key in list_keys] loop of [evaluate_global_config], on the two
    variables it updates: [failed] and [list_failed]. *)
Fixpoint default_loop (cfg : dict) (list_keys : list string)
    (st : bool * list string) : M (bool * list string) :=
  match list_keys with
  | [] => ret st
  | key :: rest =>
      v <- lift (getitem cfg key) ;;
      st' <- (if eq_str v DEFAULT then
                logger_warning
                  [Text "The value for "; Subst key;
                   Text " in the global config is set to its default value. Please fill in a proper value for this parameter."] ;;
                ret (true, snd st ++ [key])
              else ret st) ;;
      default_loop cfg rest st'
  end.

Definition evaluate_global_config (cfg : dict) (list_keys : list string)
    (config_name : string) : M unit :=
  (* -- 1. Check for presence of keys *)
  evaluate_config_keys cfg list_keys config_name ;;
  (* -- 2. Check if default values have been adjusted *)
  st <- default_loop cfg list_keys (false, []) ;;
  let '(failed, list_failed) := st in
  if failed then
    raise (Exc ValueError
             [Text "Parameters were found in the global config that are still set to their default values. Please enter proper values for these parameters. The values that must be set are for: ";
              Keys list_failed])
  else ret tt.

(** ** The checks of [main_program] *)

Record args : Type := mkArgs { project : string }.

Definition global_keys : list string := ["account_id"; "region"].

Definition project_keys : list string :=
  ["store_bucket"; "store_bucket_prefix"; "site_bucket"; "site_bucket_prefix";
   "docker_image_name"; "site_name"; "expectations_suite_name";
   "checkpoint_name"; "run_name_template"; "data_bucket"; "prefix_data"].

(** Step 2 of [main_program], after the two sections are loaded. *)
Definition main_program_checks (cfg_global cfg : dict) (a : args) : M unit :=
  (* -- Check global config *)
  evaluate_global_config cfg_global global_keys "global" ;;
  (* -- Check project config *)
  evaluate_config_keys cfg project_keys (project a).


(** ** The renderers *)

Definition nl : string := String (ascii_of_nat 10) EmptyString.
Definition dq : string := String (ascii_of_nat 34) EmptyString.

(** [open(path, "w")] then [out.write(text)], for a file that opens: the
    renderers of this part are run where the earlier steps of [main_program]
    have copied the project tree, and what they are asked for is the text
    they produce.  [Fs.write_file] below is the same call with the [open]
    that can fail, and module [Fs] holds the renderers over it. *)
Definition write_file (path text : string) : M unit :=
  fun w => (Return tt,
            mkWorld (log w) (files w ++ [(path, text)]) (listdir w) (abspath w)).

Definition os_listdir (path : string) : M (list string) :=
  fun w =>
    match listdir w path with
    | Some names => (Return names, w)
    | None => (Raise (Exc FileNotFoundError [Subst path]), w)
    end.

Definition os_path_abspath (path : string) : M string :=
  fun w => (Return (abspath w path), w).

(** [for path, doc in zip(paths, docs)]: write each document. *)
Fixpoint write_each (targets : list (string * string)) : M unit :=
  match targets with
  | [] => ret tt
  | (path, doc) :: rest => write_file path doc ;; write_each rest
  end.

(** The fixed opening of the build script, up to the build command. *)
Definition ecr_preamble : string :=
  ("#!/bin/bash" ++ nl ++
   "    " ++ nl ++
   "# Ensure region is (temporarily) set to prevent errors" ++ nl ++
   "export AWS_DEFAULT_REGION=" ++ dq ++ "eu-west-1" ++ dq ++ nl ++
   nl ++
   "# Change permissions of files. Otherwise upstream lambda will give permission error" ++ nl ++
   "chmod 644 $(find . -type f)" ++ nl ++
   "chmod 755 $(find . -type d)" ++ nl ++
   nl ++
   "# Temporarily copy requirements.txt for usage w/ Dockerfile" ++ nl ++
   "cp ../requirements.txt ./requirements.txt" ++ nl ++
   nl ++
   "# Build image" ++ nl)%string.

(** The f-string [document] of [generate_ecr_bash_script]. *)
Definition ecr_document (docker_image region ECR_endpoint : string) : string :=
  (ecr_preamble ++
   "docker build -t " ++ docker_image ++ " ." ++ nl ++
   nl ++
   "# Remove requirements.txt" ++ nl ++
   "rm -rf requirements.txt" ++ nl ++
   nl ++
   "# Log into AWS and ECR" ++ nl ++
   "aws ecr get-login-password --region " ++ region ++
   " | docker login --username AWS --password-stdin " ++ ECR_endpoint ++ nl ++
   nl ++
   "# Create test repo, gives warning but continues of it already exists" ++ nl ++
   "aws ecr create-repository --repository-name " ++ docker_image ++
   " --image-scanning-configuration scanOnPush=true --image-tag-mutability MUTABLE || true" ++ nl ++
   nl ++
   "# Tag image and push to ECR" ++ nl ++
   "docker tag " ++ docker_image ++ ":latest " ++ ECR_endpoint ++ "/" ++
   docker_image ++ ":latest" ++ nl ++
   "docker push " ++ ECR_endpoint ++ "/" ++ docker_image ++ ":latest")%string.

(** The f-string [document] of [generate_terraform_provider_config]. *)
Definition provider_document (region : string) : string :=
  ("# NOTE: It's best to run Terraform using state stored in a state bucket. For more" ++ nl ++
   "# information, please refer to https://www.terraform.io/language/state/remote" ++ nl ++
   "terraform {" ++ nl ++
   "  required_providers {" ++ nl ++
   "    aws = {" ++ nl ++
   "      source  = " ++ dq ++ "hashicorp/aws" ++ dq ++ nl ++
   "      version = " ++ dq ++ "~> 4.0.0" ++ dq ++ nl ++
   "    }" ++ nl ++
   "  }" ++ nl ++
   "}" ++ nl ++
   nl ++
   "provider " ++ dq ++ "aws" ++ dq ++ " {" ++ nl ++
   "  region = " ++ dq ++ region ++ dq ++ nl ++
   "}" ++ nl)%string.

(** The f-string [document_buckets] of [generate_terraform_var_files]. *)
Definition buckets_document (store_bucket site_bucket data_bucket : string) : string :=
  ("ge-bucket-name      = " ++ dq ++ store_bucket ++ dq ++ nl ++
   "ge-site-bucket-name = " ++ dq ++ site_bucket ++ dq ++ nl ++
   "ge-data-bucket-name = " ++ dq ++ data_bucket ++ dq ++ nl)%string.

Section Renderers.

(** [str(v)] for a float, a list or a dict: the text the interpreter gives
    them.  The templates only pass it through. *)
Variable py_repr : value -> string.

(** A replacement field [{v}] of an f-string: [format(v, '')], which is
    [str(v)] for the values of a configuration. *)
Definition format_value (v : value) : string :=
  match v with
  | VNone => "None"
  | VBool true => "True"
  | VBool false => "False"
  | VInt n => NilZero.string_of_int (Z.to_int n)
  | VStr s => s
  | VFloat _ | VList _ | VDict _ => py_repr v
  end.

Definition generate_ecr_bash_script (cfg : dict) (a : args) (cfg_global : dict)
    : M unit :=
  logger_info
    [Text "Generating bash script for making docker image and uploading it to ECR"] ;;
  let path := ("./" ++ project a ++ "/")%string in
  account_id <- lift (getitem cfg_global "account_id") ;;
  region_ep <- lift (getitem cfg_global "region") ;;
  let ECR_endpoint :=
    (format_value account_id ++ ".dkr.ecr." ++ format_value region_ep
       ++ ".amazonaws.com")%string in
  docker_image <- lift (getitem cfg "docker_image_name") ;;
  region <- lift (getitem cfg_global "region") ;;
  let document :=
    ecr_document (format_value docker_image) (format_value region) ECR_endpoint in
  write_file (path ++ "/build_image_store_on_ecr.sh")%string document.

(** The body of [for dir in os.listdir(tf_dir)]. *)
Fixpoint write_provider_files (tf_dir document : string) (dirs : list string)
    : M unit :=
  match dirs with
  | [] => ret tt
  | dir :: rest =>
      abs_path <- os_path_abspath (tf_dir ++ dir)%string ;;
      let abs_path_file := (abs_path ++ "/provider.tf")%string in
      write_file abs_path_file document ;;
      write_provider_files tf_dir document rest
  end.

Definition generate_terraform_provider_config (a : args) (cfg_global : dict)
    : M unit :=
  (* -- 1. Generate document *)
  region <- lift (getitem cfg_global "region") ;;
  let document := provider_document (format_value region) in
  (* -- 2. Put in all Terraform directories *)
  let tf_dir := (project a ++ "/terraform/")%string in
  dirs <- os_listdir tf_dir ;;
  write_provider_files tf_dir document dirs.

Definition generate_terraform_var_files (cfg : dict) (a : args) (cfg_global : dict)
    : M unit :=
  (* -- 1. Generate Terraform vars for buckets *)
  let path := ("./" ++ project a ++ "/")%string in
  store_bucket <- lift (getitem cfg "store_bucket") ;;
  site_bucket <- lift (getitem cfg "site_bucket") ;;
  data_bucket <- lift (getitem cfg "data_bucket") ;;
  let document_buckets :=
    buckets_document (format_value store_bucket) (format_value site_bucket)
      (format_value data_bucket) in
  (* -- 2. Generate Terraform vars for lambda *)
  account_id <- lift (getitem cfg_global "account_id") ;;
  region <- lift (getitem cfg_global "region") ;;
  docker_image_name <- lift (getitem cfg "docker_image_name") ;;
  let image_uri :=
    (dq ++ format_value account_id ++ ".dkr.ecr." ++ format_value region
       ++ ".amazonaws.com/" ++ format_value docker_image_name ++ ":latest" ++ dq)%string in
  let document_lambda := (document_buckets ++ "image_uri = " ++ image_uri)%string in
  (* -- 3. Write files *)
  let paths_out :=
    [("./" ++ project a ++ "/terraform/buckets/" ++ project a ++ ".auto.tfvars")%string;
     ("./" ++ project a ++ "/terraform/lambda/" ++ project a ++ ".auto.tfvars")%string] in
  write_each (combine paths_out [document_buckets; document_lambda]).

End Renderers.


(** * The other steps of the program *)

(** ** Building a dict *)

(** [d[key] = v]: a key the dict holds keeps its place and takes the new
    value; a new key goes last. *)
Fixpoint setitem (d : dict) (key : string) (v : value) : dict :=
  match d with
  | [] => [(key, v)]
  | (k, u) :: rest =>
      if k =? key then (k, v) :: rest else (k, u) :: setitem rest key v
  end.

(** [d.update(other)]: the items of [other], set one after the other. *)
Definition update (d other : dict) : dict :=
  fold_left (fun acc kv => setitem acc (fst kv) (snd kv)) (items other) d.

(** The dict display [{**a, **b}]. *)
Definition dict_unpack (a b : dict) : dict := update (update [] a) b.

(** ** The configuration document *)

(** What [yaml.safe_load] gives for testing_config.yml: a mapping from
    section names to sections, each section a mapping. *)
Definition document : Type := list (string * dict).

Fixpoint section (cfg_all : document) (name : string) : option dict :=
  match cfg_all with
  | [] => None
  | (k, d) :: rest => if k =? name then Some d else section rest name
  end.

(** [cfg_all[name]]. *)
Definition getsection (cfg_all : document) (name : string) : outcome dict :=
  match section cfg_all name with
  | Some d => Return d
  | None => Raise (Exc KeyError [Subst name])
  end.

(** Step 2 of [main_program] on the loaded document: pick the two sections,
    check them, and keep them for the later steps. *)
Definition main_program_configurations (cfg_all : document) (a : args)
    : M (dict * dict) :=
  logger_info [Text "Loading configurations from testing_config.yml"] ;;
  (* -- Load *)
  cfg_global <- lift (getsection cfg_all "global") ;;
  cfg <- match getsection cfg_all (project a) with
         | Return cfg => ret cfg
         | Raise ke =>
             logger_warning
               [Text "The project configurations for "; Subst (project a);
                Text " were not found in the testing_config.yml. Please add it."] ;;
             raise ke
         end ;;
  main_program_checks cfg_global cfg a ;;
  ret (cfg_global, cfg).

(** The f-string [base_yaml] of [generate_ge_config], by its replacement
    fields in the order they are evaluated. *)
Definition ge_document
    (store_bucket1 store_bucket_prefix1 store_bucket2 store_bucket_prefix2
    store_bucket3 store_bucket_prefix3 store_bucket4 store_bucket_prefix4
    site_name site_bucket site_bucket_prefix data_context_id : string) : string :=
  (nl ++
   "  # config_version refers to the syntactic version of this config file, and is used in maintaining backwards compatibility" ++ nl ++
   "  # It is auto-generated and usually does not need to be changed." ++ nl ++
   "  config_version: 3.0" ++ nl ++ nl ++
   "  # Datasources tell Great Expectations where your data lives and how to get it." ++ nl ++
   "  datasources:" ++ nl ++
   "    runtime_data:" ++ nl ++
   "      execution_engine:" ++ nl ++
   "        module_name: great_expectations.execution_engine" ++ nl ++
   "        class_name: PandasExecutionEngine" ++ nl ++
   "      data_connectors:" ++ nl ++
   "        runtime_data_connector:" ++ nl ++
   "          batch_identifiers:" ++ nl ++
   "            - batch_identifier" ++ nl ++
   "          class_name: RuntimeDataConnector" ++ nl ++ nl ++
   "  stores:" ++ nl ++
   "  # Stores are configurable places to store things like Expectations, Validations" ++ nl ++
   "  # Data Docs, and more. These are for advanced users only - most users can simply" ++ nl ++
   "  # leave this section alone." ++ nl ++
   "  #" ++ nl ++
   "  # Three stores are required: expectations, validations, and" ++ nl ++
   "  # evaluation_parameters, and must exist with a valid store entry. Additional" ++ nl ++
   "  # stores can be configured for uses such as data_docs, etc." ++ nl ++
   "    expectations_store:" ++ nl ++
   "      class_name: ExpectationsStore" ++ nl ++
   "      store_backend:" ++ nl ++
   "        class_name: TupleS3StoreBackend" ++ nl ++
   "        bucket: " ++ store_bucket1 ++ nl ++
   "        prefix: " ++ store_bucket_prefix1 ++ "/expectations/" ++ nl ++ nl ++
   "    validations_store:" ++ nl ++
   "      class_name: ValidationsStore" ++ nl ++
   "      store_backend:" ++ nl ++
   "        class_name: TupleS3StoreBackend" ++ nl ++
   "        bucket: " ++ store_bucket2 ++ nl ++
   "        prefix: " ++ store_bucket_prefix2 ++ "/validations/" ++ nl ++ nl ++
   "    evaluation_parameter_store:" ++ nl ++
   "      class_name: EvaluationParameterStore" ++ nl ++ nl ++
   "    checkpoint_store:" ++ nl ++
   "      class_name: CheckpointStore" ++ nl ++
   "      store_backend:" ++ nl ++
   "        class_name: TupleS3StoreBackend" ++ nl ++
   "        bucket: " ++ store_bucket3 ++ nl ++
   "        prefix: " ++ store_bucket_prefix3 ++ "/checkpoints/" ++ nl ++ nl ++
   "    profiler_store:" ++ nl ++
   "      class_name: ProfilerStore" ++ nl ++
   "      store_backend:" ++ nl ++
   "        class_name: TupleS3StoreBackend" ++ nl ++
   "        bucket: " ++ store_bucket4 ++ nl ++
   "        prefix: " ++ store_bucket_prefix4 ++ "/profiles/" ++ nl ++
   "        suppress_store_backend_id: true" ++ nl ++ nl ++
   "  expectations_store_name: expectations_store" ++ nl ++
   "  validations_store_name: validations_store" ++ nl ++
   "  evaluation_parameter_store_name: evaluation_parameter_store" ++ nl ++
   "  checkpoint_store_name: checkpoint_store" ++ nl ++
   "  profiler_store_name: profiler_store" ++ nl ++ nl ++
   "  data_docs_sites:" ++ nl ++
   "  # Data Docs make it simple to visualize data quality in your project. These" ++ nl ++
   "  # include Expectations, Validations & Profiles. The are built for all" ++ nl ++
   "  # Datasources from JSON artifacts in the local repo including validations &" ++ nl ++
   "  # profiles from the uncommitted directory. Read more at https://docs.greatexpectations.io/en/latest/reference/core_concepts/data_docs.html" ++ nl ++
   "    " ++ site_name ++ ":" ++ nl ++
   "      class_name: SiteBuilder" ++ nl ++
   "      # set to false to hide how-to buttons in Data Docs" ++ nl ++
   "      show_how_to_buttons: true" ++ nl ++
   "      store_backend:" ++ nl ++
   "        class_name: TupleS3StoreBackend" ++ nl ++
   "        bucket: " ++ site_bucket ++ nl ++
   "        prefix: " ++ site_bucket_prefix ++ nl ++
   "      site_index_builder:" ++ nl ++
   "        class_name: DefaultSiteIndexBuilder" ++ nl ++
   nl ++
   nl ++
   "  anonymous_usage_statistics:" ++ nl ++
   "    enabled: true" ++ nl ++
   "    data_context_id: " ++ data_context_id ++ nl ++
   "  ")%string.

Section Materializer.

(** [str(v)] for a float, a list or a dict, as for the renderers above. *)
Variable py_repr : value -> string.

(** [generate_ge_config] up to the value of [base_yaml]; [uuid4] is the text
    of the identifier that [uuid.uuid4()] draws. *)
Definition generate_ge_config_base_yaml (cfg : dict) (a : args) (uuid4 : string)
    : M string :=
  logger_info [Text "Generating Great Expectations configuration file"] ;;
  let path := ("./" ++ project a ++ "/")%string in
  store_bucket1 <- lift (getitem cfg "store_bucket") ;;
  store_bucket_prefix1 <- lift (getitem cfg "store_bucket_prefix") ;;
  store_bucket2 <- lift (getitem cfg "store_bucket") ;;
  store_bucket_prefix2 <- lift (getitem cfg "store_bucket_prefix") ;;
  store_bucket3 <- lift (getitem cfg "store_bucket") ;;
  store_bucket_prefix3 <- lift (getitem cfg "store_bucket_prefix") ;;
  store_bucket4 <- lift (getitem cfg "store_bucket") ;;
  store_bucket_prefix4 <- lift (getitem cfg "store_bucket_prefix") ;;
  site_name <- lift (getitem cfg "site_name") ;;
  site_bucket <- lift (getitem cfg "site_bucket") ;;
  site_bucket_prefix <- lift (getitem cfg "site_bucket_prefix") ;;
  ret (ge_document
         (format_value py_repr store_bucket1)
         (format_value py_repr store_bucket_prefix1)
         (format_value py_repr store_bucket2)
         (format_value py_repr store_bucket_prefix2)
         (format_value py_repr store_bucket3)
         (format_value py_repr store_bucket_prefix3)
         (format_value py_repr store_bucket4)
         (format_value py_repr store_bucket_prefix4)
         (format_value py_repr site_name)
         (format_value py_repr site_bucket)
         (format_value py_repr site_bucket_prefix)
         uuid4).

End Materializer.

(** ** Writing where [open] can fail *)

(** The functions that write, with the [open] of the source: it raises when
    the directory of the file is missing or is a plain file, or when the path
    is a directory.  Which of these holds is the file system's answer, which
    the world carries only as far as [listdir]; it is taken here as it
    comes. *)
Module Fs.
Section OpenFiles.

(** [str(v)] for a float, a list or a dict, as for the renderers above. *)
Variable py_repr : value -> string.

(** [yaml.dump(cfg, default_flow_style=False)] of ruamel.yaml. *)
Variable yaml_dump : dict -> string.

(** [open(path, "w")] in a world: None when the file opens, otherwise the
    OSError that [open] raises. *)
Variable os_open : world -> string -> option exception.

(** [with open(path, "w") as out: out.write(text)]. *)
Definition write_file (path text : string) : M unit :=
  fun w =>
    match os_open w path with
    | Some e => (Raise e, w)
    | None =>
        (Return tt,
         mkWorld (log w) (files w ++ [(path, text)]) (listdir w) (abspath w))
    end.

(** [cfg_global] defaults to None. *)
Definition generate_project_config (cfg : dict) (a : args)
    (cfg_global : option dict) : M unit :=
  (* -- Check for global configs, add if passed *)
  let cfg :=
    match cfg_global with
    | Some g => if truthy (VDict g) then dict_unpack cfg g else cfg
    | None => cfg
    end in
  (* -- Write file *)
  let doc_out := yaml_dump cfg in
  write_file ("./" ++ project a ++ "/project_config.yml")%string doc_out.

Definition generate_ecr_bash_script (cfg : dict) (a : args) (cfg_global : dict)
    : M unit :=
  logger_info
    [Text "Generating bash script for making docker image and uploading it to ECR"] ;;
  let path := ("./" ++ project a ++ "/")%string in
  account_id <- lift (getitem cfg_global "account_id") ;;
  region_ep <- lift (getitem cfg_global "region") ;;
  let ECR_endpoint :=
    (format_value py_repr account_id ++ ".dkr.ecr."
       ++ format_value py_repr region_ep ++ ".amazonaws.com")%string in
  docker_image <- lift (getitem cfg "docker_image_name") ;;
  region <- lift (getitem cfg_global "region") ;;
  let document :=
    ecr_document (format_value py_repr docker_image)
      (format_value py_repr region) ECR_endpoint in
  write_file (path ++ "/build_image_store_on_ecr.sh")%string document.

(** The body of [for dir in os.listdir(tf_dir)]. *)
Fixpoint write_provider_files (tf_dir document : string) (dirs : list string)
    : M unit :=
  match dirs with
  | [] => ret tt
  | dir :: rest =>
      abs_path <- os_path_abspath (tf_dir ++ dir)%string ;;
      let abs_path_file := (abs_path ++ "/provider.tf")%string in
      write_file abs_path_file document ;;
      write_provider_files tf_dir document rest
  end.

Definition generate_terraform_provider_config (a : args) (cfg_global : dict)
    : M unit :=
  (* -- 1. Generate document *)
  region <- lift (getitem cfg_global "region") ;;
  let document := provider_document (format_value py_repr region) in
  (* -- 2. Put in all Terraform directories *)
  let tf_dir := (project a ++ "/terraform/")%string in
  dirs <- os_listdir tf_dir ;;
  write_provider_files tf_dir document dirs.

(** [for path, doc in zip(paths, docs)]: write each document. *)
Fixpoint write_each (targets : list (string * string)) : M unit :=
  match targets with
  | [] => ret tt
  | (path, doc) :: rest => write_file path doc ;; write_each rest
  end.

Definition generate_terraform_var_files (cfg : dict) (a : args) (cfg_global : dict)
    : M unit :=
  (* -- 1. Generate Terraform vars for buckets *)
  let path := ("./" ++ project a ++ "/")%string in
  store_bucket <- lift (getitem cfg "store_bucket") ;;
  site_bucket <- lift (getitem cfg "site_bucket") ;;
  data_bucket <- lift (getitem cfg "data_bucket") ;;
  let document_buckets :=
    buckets_document (format_value py_repr store_bucket)
      (format_value py_repr site_bucket) (format_value py_repr data_bucket) in
  (* -- 2. Generate Terraform vars for lambda *)
  account_id <- lift (getitem cfg_global "account_id") ;;
  region <- lift (getitem cfg_global "region") ;;
  docker_image_name <- lift (getitem cfg "docker_image_name") ;;
  let image_uri :=
    (dq ++ format_value py_repr account_id ++ ".dkr.ecr."
       ++ format_value py_repr region ++ ".amazonaws.com/"
       ++ format_value py_repr docker_image_name ++ ":latest" ++ dq)%string in
  let document_lambda := (document_buckets ++ "image_uri = " ++ image_uri)%string in
  (* -- 3. Write files *)
  let paths_out :=
    [("./" ++ project a ++ "/terraform/buckets/" ++ project a ++ ".auto.tfvars")%string;
     ("./" ++ project a ++ "/terraform/lambda/" ++ project a ++ ".auto.tfvars")%string] in
  write_each (combine paths_out [document_buckets; document_lambda]).

(** Steps 7 to 9 of [main_program]. *)
Definition main_program_render (cfg : dict) (a : args) (cfg_global : dict)
    : M unit :=
  (* -- 7. Generate bash script for building Docker image and push to ECR *)
  generate_ecr_bash_script cfg a cfg_global ;;
  (* -- 8. Generate Terraform var files *)
  generate_terraform_var_files cfg a cfg_global ;;
  (* -- 9. Add provider.tf in each Terraform directory *)
  generate_terraform_provider_config a cfg_global.

End OpenFiles.
End Fs.

(** * Vocabulary of the properties *)

(** The two lists [evaluate_config_keys] computes, by name. *)
Definition missing_keys (cfg : dict) (list_keys : list string) : list string :=
  filter (fun key => negb (contains cfg key)) list_keys.

Definition missing_values (cfg : dict) : list string :=
  map fst (filter (fun kv => negb (fst kv =? "site_bucket_prefix"))
             (filter (fun kv => negb (truthy (snd kv))) (items cfg))).

Definition log_add (w : world) (l : level) (m : message) : world :=
  mkWorld (log w ++ [(l, m)]) (files w) (listdir w) (abspath w).

Definition checking_record (config_name : string) : message :=
  [Text "Checking if required keys can be found in the ";
   Subst config_name; Text " config"].

(** A world in which nothing was logged or written yet and no directory
    exists. *)
Definition empty_world : world :=
  mkWorld [] [] (fun _ => None) (fun path => path).

(** A call ends normally. *)
Definition succeeds (m : M unit) (w : world) : Prop :=
  exists w', m w = (Return tt, w').

(** The missing-values report read as the falsy required keys less the
    exempt one. *)
Definition reports_falsy_required_keys (cfg : dict) (list_keys : list string)
    (config_name : string) (w : world) : Prop :=
  forall e w',
    evaluate_config_keys cfg list_keys config_name w = (Raise e, w') ->
    forall k,
      In k (reported_keys e) <->
      In k list_keys /\ k <> "site_bucket_prefix" /\
      exists v, lookup cfg k = Some v /\ truthy v = false.

(** One report naming the offending keys of both kinds: the required keys
    that are absent and the required keys that are present with a falsy
    value. *)
Definition reports_both_kinds (cfg : dict) (list_keys : list string)
    (config_name : string) (w : world) : Prop :=
  exists e w',
    evaluate_config_keys cfg list_keys config_name w = (Raise e, w') /\
    (forall k, In k list_keys -> ~ In k (keys cfg) -> In k (reported_keys e)) /\
    (forall k v, In k list_keys -> lookup cfg k = Some v -> truthy v = false ->
                 k <> "site_bucket_prefix" -> In k (reported_keys e)).

(** The required keys whose value is still the sentinel, in the order of
    the required list. *)
Definition holds_default (cfg : dict) (key : string) : bool :=
  match lookup cfg key with
  | Some v => eq_str v DEFAULT
  | None => false
  end.

Definition unset_defaults (cfg : dict) (list_keys : list string) : list string :=
  filter (holds_default cfg) list_keys.

(** The world after a call that logged [lg] and wrote [out]. *)
Definition extend (w : world) (lg : list (level * message))
    (out : list (string * string)) : world :=
  mkWorld (log w ++ lg) (files w ++ out) (listdir w) (abspath w).

(** A call whose outcome, records and files are the same from every world. *)
Definition uniform {A} (m : M A) : Prop :=
  exists o lg out, forall w, m w = (o, extend w lg out).

(** The texts a call writes, in order: what it adds to the files of the
    world it starts from. *)
Definition texts_written {A} (m : M A) (w : world) : list string :=
  map snd (skipn (length (files w)) (files (snd (m w)))).

(** [sub in s]. *)
Fixpoint is_infix (sub s : string) : bool :=
  String.prefix sub s ||
  match s with
  | EmptyString => false
  | String _ rest => is_infix sub rest
  end.

Definition infix (sub s : string) : Prop :=
  exists pre post, s = (pre ++ sub ++ post)%string.

(** The lines of a text, split at newlines, as [str.splitlines] gives them
    for a text whose only line breaks are newlines. *)
Fixpoint lines (s : string) : list string :=
  match s with
  | EmptyString => []
  | String c rest =>
      if Ascii.eqb c (ascii_of_nat 10) then EmptyString :: lines rest
      else match lines rest with
           | [] => [String c EmptyString]
           | l :: ls => String c l :: ls
           end
  end.

(** What [generate_ecr_bash_script] logs, the file it writes to and the
    registry endpoint it computes. *)
Definition ecr_record : message :=
  [Text "Generating bash script for making docker image and uploading it to ECR"].

Definition ecr_path (a : args) : string :=
  (("./" ++ project a ++ "/") ++ "/build_image_store_on_ecr.sh")%string.

Definition registry_endpoint (account_id region : string) : string :=
  (account_id ++ ".dkr.ecr." ++ region ++ ".amazonaws.com")%string.

(** The two files [generate_terraform_var_files] writes to. *)
Definition buckets_path (a : args) : string :=
  ("./" ++ project a ++ "/terraform/buckets/" ++ project a ++ ".auto.tfvars")%string.

Definition lambda_path (a : args) : string :=
  ("./" ++ project a ++ "/terraform/lambda/" ++ project a ++ ".auto.tfvars")%string.

(** The directory [generate_terraform_provider_config] lists. *)
Definition tf_dir (a : args) : string := (project a ++ "/terraform/")%string.

(** The line of the build script that sets the default region. *)
Definition export_line : string :=
  ("export AWS_DEFAULT_REGION=" ++ dq ++ "eu-west-1" ++ dq)%string.

(** The registry-login command of the build script. *)
Definition login_line (account_id region : string) : string :=
  ("aws ecr get-login-password --region " ++ region ++
   " | docker login --username AWS --password-stdin " ++
   registry_endpoint account_id region)%string.

(** The assignment the lambda variable file adds. *)
Definition image_uri_line (account_id region docker_image_name : string) : string :=
  ("image_uri = " ++ dq ++ account_id ++ ".dkr.ecr." ++ region ++
   ".amazonaws.com/" ++ docker_image_name ++ ":latest" ++ dq)%string.

(** The three lines of the buckets variable file for the buckets b1, b2
    and b3. *)
Definition sample_bucket_lines : list string :=
  [("ge-bucket-name      = " ++ dq ++ "b1" ++ dq)%string;
   ("ge-site-bucket-name = " ++ dq ++ "b2" ++ dq)%string;
   ("ge-data-bucket-name = " ++ dq ++ "b3" ++ dq)%string].

(** No newline in a text. *)
Fixpoint one_line (s : string) : bool :=
  match s with
  | EmptyString => true
  | String c rest => negb (Ascii.eqb c (ascii_of_nat 10)) && one_line rest
  end.

(** Sample configurations. *)
Definition global_with_note : dict :=
  [("account_id", VStr "123"); ("region", VStr "us-east-1"); ("note", VNone)].

Definition global_empty_account : dict :=
  [("account_id", VNone)].

Definition global_unset_region : dict :=
  [("account_id", VStr "123"); ("region", VStr "MUST_BE_SET")].

Definition global_ireland : dict :=
  [("account_id", VStr "123456789012"); ("region", VStr "eu-west-1")].

Definition project_myimg : dict :=
  [("store_bucket", VStr "b1"); ("site_bucket", VStr "b2");
   ("data_bucket", VStr "b3"); ("docker_image_name", VStr "myimg")].

(** A world whose terraform directory for the project demo lists two
    subdirectories. *)
Definition world_with_dirs : world :=
  mkWorld [] []
    (fun path => if path =? "demo/terraform/" then Some ["buckets"; "lambda"]
                 else None)
    (fun path => ("/repo/" ++ path)%string).

(** A stand-in for the interpreter's text of floats, lists and dicts. *)
Definition no_repr (v : value) : string := EmptyString.

Definition global_sample : dict :=
  [("account_id", VStr "123"); ("region", VStr "us-east-1")].

Definition project_without_prefix : dict :=
  [("store_bucket", VStr "store"); ("store_bucket_prefix", VStr "ge");
   ("site_bucket", VStr "site");
   ("docker_image_name", VStr "img"); ("site_name", VStr "docs");
   ("expectations_suite_name", VStr "suite"); ("checkpoint_name", VStr "chk");
   ("run_name_template", VStr "run"); ("data_bucket", VStr "data");
   ("prefix_data", VStr "raw")].

Definition project_empty_prefix : dict :=
  [("store_bucket", VStr "store"); ("store_bucket_prefix", VStr "ge");
   ("site_bucket", VStr "site"); ("site_bucket_prefix", VNone);
   ("docker_image_name", VStr "img"); ("site_name", VStr "docs");
   ("expectations_suite_name", VStr "suite"); ("checkpoint_name", VStr "chk");
   ("run_name_template", VStr "run"); ("data_bucket", VStr "data");
   ("prefix_data", VStr "raw")].

(** ** Vocabulary of the further properties *)

(** A call that writes no file, however it ends. *)
Definition keeps_files {A} (m : M A) : Prop :=
  forall w, files (snd (m w)) = files w.

(** The world after a call that only logged [lg]. *)
Definition log_extend (w : world) (lg : list (level * message)) : world :=
  mkWorld (log w ++ lg) (files w) (listdir w) (abspath w).

(** The warning of [evaluate_global_config] for a key left at its default. *)
Definition default_record (key : string) : message :=
  [Text "The value for "; Subst key;
   Text " in the global config is set to its default value. Please fill in a proper value for this parameter."].

(** The two records of the loading step. *)
Definition loading_record : message :=
  [Text "Loading configurations from testing_config.yml"].

Definition not_found_record (a : args) : message :=
  [Text "The project configurations for "; Subst (project a);
   Text " were not found in the testing_config.yml. Please add it."].

(** The keys [base_yaml] reads, in the order it first reads them. *)
Definition ge_keys : list string :=
  ["store_bucket"; "store_bucket_prefix"; "site_name"; "site_bucket";
   "site_bucket_prefix"].

Definition ge_record : message :=
  [Text "Generating Great Expectations configuration file"].

(** The first key of a list that a config does not hold. *)
Definition first_absent (cfg : dict) (ks : list string) : option string :=
  find (fun k => negb (contains cfg k)) ks.

Definition project_config_path (a : args) : string :=
  ("./" ++ project a ++ "/project_config.yml")%string.

(** The image the build script pushes and the lambda variable file names. *)
Definition image_uri (account_id region docker_image_name : string) : string :=
  (account_id ++ ".dkr.ecr." ++ region ++ ".amazonaws.com/" ++
   docker_image_name ++ ":latest")%string.

(** The provider files written for a listing of the terraform directory. *)
Definition provider_files (w : world) (a : args) (text : string)
    (dirs : list string) : list (string * string) :=
  map (fun dir => ((abspath w (tf_dir a ++ dir) ++ "/provider.tf")%string, text))
    dirs.

(** The bucket and prefix lines of one store of the Great Expectations
    document. *)
Definition store_backend (bucket prefix suffix : string) : string :=
  ("        bucket: " ++ bucket ++ nl ++
   "        prefix: " ++ prefix ++ suffix ++ nl)%string.

(** [sub] closes [s]. *)
Definition suffix_of (sub s : string) : Prop :=
  exists pre, s = (pre ++ sub)%string.

(** [sub] opens [s]. *)
Definition prefix_of (sub s : string) : Prop :=
  exists post, s = (sub ++ post)%string.

(** More sample configurations. *)
Definition document_sample : document :=
  [("global", global_sample); ("demo", project_empty_prefix)].

Definition document_without_global : document :=
  [("demo", project_empty_prefix)].

Definition project_with_region : dict :=
  [("site_name", VStr "docs"); ("region", VStr "local")].

(** ** Vocabulary of the properties on opening files *)

(** File systems for the samples: one where every file opens, one where one
    path does not. *)
Definition opens_all : world -> string -> option exception :=
  fun _ _ => None.

Definition opens_except (bad : string) (e : exception)
    : world -> string -> option exception :=
  fun _ path => if path =? bad then Some e else None.

Definition no_such_file (path : string) : exception :=
  Exc FileNotFoundError [Subst path].

Definition not_a_directory (path : string) : exception :=
  Exc NotADirectoryError [Subst path].

(** The provider file written for an entry of the terraform directory. *)
Definition provider_path (w : world) (a : args) (dir : string) : string :=
  (abspath w (tf_dir a ++ dir) ++ "/provider.tf")%string.

(** A terraform directory that also holds a plain file. *)
Definition world_with_notes : world :=
  mkWorld [] []
    (fun path => if path =? "demo/terraform/"
                 then Some ["buckets"; "notes.txt"; "lambda"] else None)
    (fun path => ("/repo/" ++ path)%string).

(** * Properties *)

(** ** Dicts *)

Lemma contains_In (cfg : dict) (key : string) :
  contains cfg key = true <-> In key (keys cfg).
Proof.
  unfold contains. rewrite existsb_exists. split.
  - intros [k [Hin Heq]]. apply String.eqb_eq in Heq. now subst.
  - intros Hin. exists key. split; [assumption | apply String.eqb_refl].
Qed.

Lemma contains_false (cfg : dict) (key : string) :
  contains cfg key = false <-> ~ In key (keys cfg).
Proof.
  rewrite <- contains_In. destruct (contains cfg key); split; congruence.
Qed.

Lemma lookup_In (cfg : dict) (key : string) (v : value) :
  lookup cfg key = Some v -> In (key, v) (items cfg).
Proof.
  unfold items. induction cfg as [|[k u] rest IH]; simpl; [discriminate|].
  destruct (String.eqb_spec k key) as [->|Hne].
  - intros [= ->]. now left.
  - intros H. right. now apply IH.
Qed.

Lemma lookup_present (cfg : dict) (key : string) :
  In key (keys cfg) -> exists v, lookup cfg key = Some v.
Proof.
  unfold keys. induction cfg as [|[k u] rest IH]; simpl; [contradiction|].
  destruct (String.eqb_spec k key) as [->|Hne].
  - intros _. now exists u.
  - intros [Heq|Hin]; [contradiction | now apply IH].
Qed.

Lemma lookup_wf (cfg : dict) (key : string) (v : value) :
  dict_wf cfg -> In (key, v) (items cfg) -> lookup cfg key = Some v.
Proof.
  unfold dict_wf, keys, items. induction cfg as [|[k u] rest IH]; simpl.
  - contradiction.
  - intros Hnd [Heq|Hin].
    + inversion Heq; subst. now rewrite String.eqb_refl.
    + inversion Hnd as [|? ? Hnotin Hnd']; subst.
      destruct (String.eqb_spec k key) as [->|Hne].
      * exfalso. apply Hnotin. now apply (in_map fst) in Hin.
      * now apply IH.
Qed.

Lemma getitem_present (cfg : dict) (key : string) :
  In key (keys cfg) -> exists v, getitem cfg key = Return v.
Proof.
  intros Hin. destruct (lookup_present _ _ Hin) as [v Hv].
  exists v. unfold getitem. now rewrite Hv.
Qed.

Lemma eq_str_true (v : value) (s : string) :
  eq_str v s = true <-> v = VStr s.
Proof.
  destruct v; simpl; try (split; [discriminate | intros [=]]).
  rewrite String.eqb_eq. split; [now intros -> | now intros [= ->]].
Qed.

(** ** Sample runs *)

Example truthy_samples :
  map truthy [VNone; VBool false; VInt 0; VFloat (S754_zero true);
              VStr EmptyString; VList []; VDict [];
              VStr "0"; VInt (-1); VFloat S754_nan; VList [VNone]]
  = [false; false; false; false; false; false; false; true; true; true; true].
Proof. reflexivity. Qed.

Example project_without_prefix_run :
  fst (evaluate_config_keys project_without_prefix project_keys "demo" empty_world)
  = Raise (Exc KeyError
             [Text "The "; Subst "demo";
              Text " configuration is missing the following arguments: ";
              Keys ["site_bucket_prefix"]]).
Proof. reflexivity. Qed.

Example global_unset_region_run :
  fst (evaluate_global_config global_unset_region global_keys "global" empty_world)
  = Raise (Exc ValueError
             [Text "Parameters were found in the global config that are still set to their default values. Please enter proper values for these parameters. The values that must be set are for: ";
              Keys ["region"]]).
Proof. reflexivity. Qed.

Example global_with_note_run :
  reported_keys
    match fst (evaluate_config_keys global_with_note global_keys "global" empty_world) with
    | Raise e => e
    | Return _ => Exc KeyError []
    end
  = ["note"].
Proof. reflexivity. Qed.

Example format_value_samples :
  map (format_value no_repr) [VStr "eu-west-1"; VInt 123456789012; VInt (-7); VNone; VBool true]
  = ["eu-west-1"; "123456789012"; "-7"; "None"; "True"].
Proof. reflexivity. Qed.

Example provider_files_run :
  files (snd (generate_terraform_provider_config no_repr (mkArgs "demo")
                global_ireland world_with_dirs))
  = [("/repo/demo/terraform/buckets/provider.tf", provider_document "eu-west-1");
     ("/repo/demo/terraform/lambda/provider.tf", provider_document "eu-west-1")].
Proof. reflexivity. Qed.

(** ** The lists [evaluate_config_keys] computes and how it ends *)

Lemma missing_keys_spec (cfg : dict) (list_keys : list string) (k : string) :
  In k (missing_keys cfg list_keys) <-> In k list_keys /\ ~ In k (keys cfg).
Proof.
  unfold missing_keys. rewrite filter_In, negb_true_iff, contains_false.
  reflexivity.
Qed.

Lemma missing_values_spec (cfg : dict) (k : string) :
  In k (missing_values cfg) <->
  k <> "site_bucket_prefix" /\
  exists v, In (k, v) (items cfg) /\ truthy v = false.
Proof.
  unfold missing_values. rewrite in_map_iff. split.
  - intros [[k' v] [Hk Hin]]. simpl in Hk. subst k'.
    rewrite !filter_In in Hin. simpl in Hin.
    destruct Hin as [[Hin Hv] Hne].
    rewrite negb_true_iff in Hv, Hne. apply String.eqb_neq in Hne.
    split; [assumption | now exists v].
  - intros [Hne [v [Hin Hv]]]. exists (k, v). split; [reflexivity|].
    rewrite !filter_In. simpl. rewrite !negb_true_iff.
    apply String.eqb_neq in Hne. auto.
Qed.

(** The three ways [evaluate_config_keys] ends. *)
Lemma evaluate_config_keys_missing_keys cfg list_keys config_name w :
  missing_keys cfg list_keys <> [] ->
  exists m,
    evaluate_config_keys cfg list_keys config_name w =
    (Raise (Exc KeyError
              [Text "The "; Subst config_name;
               Text " configuration is missing the following arguments: ";
               Keys (missing_keys cfg list_keys)]),
     log_add (log_add w INFO (checking_record config_name)) WARNING m).
Proof.
  intros Hne. unfold evaluate_config_keys, missing_keys in *.
  destruct (filter _ list_keys) as [|k ks] eqn:E; [congruence|].
  eexists. unfold bind, logger_info, logger_warning, emit, raise. simpl.
  reflexivity.
Qed.

Lemma evaluate_config_keys_missing_values cfg list_keys config_name w :
  missing_keys cfg list_keys = [] ->
  missing_values cfg <> [] ->
  exists m,
    evaluate_config_keys cfg list_keys config_name w =
    (Raise (Exc KeyError
              [Text "The "; Subst config_name;
               Text " configuration is missing values for the following arguments: ";
               Keys (missing_values cfg)]),
     log_add (log_add w INFO (checking_record config_name)) WARNING m).
Proof.
  intros Hk Hv. unfold evaluate_config_keys, missing_keys, missing_values in *.
  rewrite Hk.
  destruct (map fst _) as [|k ks] eqn:E; [congruence|].
  eexists. unfold bind, logger_info, logger_warning, emit, raise, ret. simpl.
  reflexivity.
Qed.

Lemma evaluate_config_keys_passes cfg list_keys config_name w :
  missing_keys cfg list_keys = [] ->
  missing_values cfg = [] ->
  evaluate_config_keys cfg list_keys config_name w =
  (Return tt, log_add w INFO (checking_record config_name)).
Proof.
  intros Hk Hv. unfold evaluate_config_keys, missing_keys, missing_values in *.
  rewrite Hk, Hv. reflexivity.
Qed.

Lemma evaluate_config_keys_return_inv cfg list_keys config_name w w1 :
  evaluate_config_keys cfg list_keys config_name w = (Return tt, w1) ->
  missing_keys cfg list_keys = [] /\ missing_values cfg = [] /\
  w1 = log_add w INFO (checking_record config_name).
Proof.
  intros H.
  destruct (missing_keys cfg list_keys) as [|k ks] eqn:Ek.
  - destruct (missing_values cfg) as [|k ks] eqn:Ev.
    + rewrite (evaluate_config_keys_passes _ _ _ _ Ek Ev) in H.
      now inversion H.
    + destruct (evaluate_config_keys_missing_values cfg list_keys config_name w Ek)
        as [m Hm]; [congruence|].
      rewrite Hm in H. discriminate.
  - destruct (evaluate_config_keys_missing_keys cfg list_keys config_name w)
      as [m Hm]; [congruence|].
    rewrite Hm in H. discriminate.
Qed.

(** In a dict, which holds each key once, the reported keys are those whose
    value, as [cfg[key]] finds it, is falsy. *)
Lemma missing_values_lookup (cfg : dict) (k : string) :
  dict_wf cfg ->
  (In k (missing_values cfg) <->
   k <> "site_bucket_prefix" /\
   exists v, lookup cfg k = Some v /\ truthy v = false).
Proof.
  intros Hwf. rewrite missing_values_spec. split.
  - intros [Hne [v [Hin Hv]]]. split; [assumption|].
    exists v. split; [now apply lookup_wf | assumption].
  - intros [Hne [v [Hlk Hv]]]. split; [assumption|].
    exists v. split; [now apply lookup_In | assumption].
Qed.

Lemma no_missing_keys cfg list_keys :
  missing_keys cfg list_keys = [] <-> forall k, In k list_keys -> In k (keys cfg).
Proof.
  split.
  - intros E k Hin.
    destruct (contains cfg k) eqn:Hc; [now apply contains_In|].
    assert (Hm : In k (missing_keys cfg list_keys))
      by (apply missing_keys_spec; split; [assumption | now apply contains_false]).
    rewrite E in Hm. contradiction.
  - intros H. destruct (missing_keys cfg list_keys) as [|k ks] eqn:E; [reflexivity|].
    assert (Hm : In k (missing_keys cfg list_keys)) by (rewrite E; now left).
    apply missing_keys_spec in Hm. destruct Hm as [Hin Hno].
    exfalso. apply Hno. now apply H.
Qed.

(** ** Missing keys *)

(** C2. When one or more required keys are absent from the config,
    [evaluate_config_keys] raises a KeyError whose list names every absent
    required key, not only the first. *)
Theorem missing_keys_all_reported cfg list_keys config_name w :
  (exists k, In k list_keys /\ ~ In k (keys cfg)) ->
  exists arg w',
    evaluate_config_keys cfg list_keys config_name w
      = (Raise (Exc KeyError arg), w') /\
    forall k, In k list_keys -> ~ In k (keys cfg) -> In k (message_keys arg).
Proof.
  intros [k0 [Hin0 Hno0]].
  assert (Hne : missing_keys cfg list_keys <> []).
  { intros E. assert (Hm : In k0 (missing_keys cfg list_keys))
      by (apply missing_keys_spec; auto).
    rewrite E in Hm. contradiction. }
  destruct (evaluate_config_keys_missing_keys cfg list_keys config_name w Hne)
    as [m Hm].
  eexists. eexists. split; [exact Hm|].
  intros k Hin Hno. simpl. rewrite app_nil_r.
  apply missing_keys_spec. auto.
Qed.

Lemma missing_keys_all_reported_witness :
  exists arg w',
    evaluate_config_keys project_without_prefix
      ["site_bucket_prefix"; "docker_image_name"; "owner"; "team"] "demo"
      empty_world
      = (Raise (Exc KeyError arg), w') /\
    In "site_bucket_prefix" (message_keys arg) /\
    In "owner" (message_keys arg) /\
    In "team" (message_keys arg).
Proof.
  destruct (missing_keys_all_reported project_without_prefix
              ["site_bucket_prefix"; "docker_image_name"; "owner"; "team"]
              "demo" empty_world) as [arg [w' [Hrun Hall]]].
  - exists "owner". split; [simpl; auto|].
    apply contains_false. reflexivity.
  - exists arg, w'. split; [exact Hrun|].
    repeat split; apply Hall; try (simpl; tauto);
      apply contains_false; reflexivity.
Defined.

(** C3, as stated, fails: with [region] absent and [account_id] present but
    empty, the one report names [region] only. *)
Lemma report_omits_empty_values :
  ~ reports_both_kinds global_empty_account global_keys "global" empty_world.
Proof.
  intros [e [w' [Hrun [_ Hvalues]]]].
  assert (Hin : In "account_id" (reported_keys e)).
  { apply (Hvalues "account_id" VNone); simpl; auto. discriminate. }
  vm_compute in Hrun. inversion Hrun; subst e. simpl in Hin.
  destruct Hin as [Heq | []]. discriminate.
Qed.

(** C3, amended.  When one or more required keys are absent, the check stops
    at the key-presence stage: it logs one warning and raises one KeyError
    whose list names every absent required key and no key the config holds,
    so a present key with an empty value is not part of that report. *)
Theorem missing_keys_raised_before_values cfg list_keys config_name w :
  (exists k, In k list_keys /\ ~ In k (keys cfg)) ->
  exists e w' m,
    evaluate_config_keys cfg list_keys config_name w = (Raise e, w') /\
    (forall k, In k list_keys -> ~ In k (keys cfg) -> In k (reported_keys e)) /\
    (forall k, In k (keys cfg) -> ~ In k (reported_keys e)) /\
    log w' = log w ++ [(INFO, checking_record config_name); (WARNING, m)].
Proof.
  intros [k0 [Hin0 Hno0]].
  assert (Hne : missing_keys cfg list_keys <> []).
  { intros E. assert (Hm : In k0 (missing_keys cfg list_keys))
      by (apply missing_keys_spec; auto).
    rewrite E in Hm. contradiction. }
  destruct (evaluate_config_keys_missing_keys cfg list_keys config_name w Hne)
    as [m Hm].
  eexists. exists (log_add (log_add w INFO (checking_record config_name)) WARNING m), m.
  split; [exact Hm|]. simpl. rewrite app_nil_r. repeat split.
  - intros k Hin Hno. apply missing_keys_spec. auto.
  - intros k Hin Hrep. apply missing_keys_spec in Hrep. tauto.
  - rewrite <- app_assoc. reflexivity.
Qed.

Lemma missing_keys_raised_before_values_witness :
  exists e w' m,
    evaluate_config_keys global_empty_account global_keys "global" empty_world
      = (Raise e, w') /\
    In "region" (reported_keys e) /\
    ~ In "account_id" (reported_keys e) /\
    log w' = [(INFO, checking_record "global"); (WARNING, m)].
Proof.
  destruct (missing_keys_raised_before_values global_empty_account global_keys
              "global" empty_world) as [e [w' [m [Hrun [Habs [Hpres Hlog]]]]]].
  - exists "region". split; [simpl; auto|].
    apply contains_false. reflexivity.
  - exists e, w', m. split; [exact Hrun|]. repeat split.
    + apply Habs; [simpl; auto | apply contains_false; reflexivity].
    + apply Hpres. simpl. auto.
    + exact Hlog.
Defined.

(** ** Missing values *)

(** C1, as stated, fails: a key outside the required list that has no value
    is reported. *)
Lemma report_names_key_outside_required :
  ~ reports_falsy_required_keys global_with_note global_keys "global" empty_world.
Proof.
  intros H. unfold reports_falsy_required_keys in H.
  specialize (H _ _ eq_refl "note"). simpl in H.
  destruct H as [H _].
  destruct H as [Hin _]; [now left|].
  simpl in Hin. destruct Hin as [Heq | [Heq | []]]; discriminate.
Qed.

Lemma filter_twice {A} (f g : A -> bool) (l : list A) :
  filter f (filter g l) = filter (fun x => g x && f x) l.
Proof.
  induction l as [|x l IH]; simpl; [reflexivity|].
  destruct (g x); simpl; [|exact IH].
  destruct (f x); [now rewrite IH | exact IH].
Qed.

(** C1, amended.  When all required keys are present, the missing-values
    failure of [evaluate_config_keys] is raised exactly when some entry of
    the config, required or not, other than [site_bucket_prefix] has a falsy
    value; its list then names exactly the keys of those entries, so
    [site_bucket_prefix] never appears in it and every reported key is a key
    of the config; the list is the keys of those entries read off the config
    in its order, one for each entry.  With no such entry the check
    passes. *)
Theorem missing_values_report cfg list_keys config_name w :
  (forall k, In k list_keys -> In k (keys cfg)) ->
  ((exists k v, In (k, v) (items cfg) /\ truthy v = false /\
                k <> "site_bucket_prefix") ->
   exists arg w',
     evaluate_config_keys cfg list_keys config_name w
       = (Raise (Exc KeyError arg), w') /\
     (forall k, In k (message_keys arg) <->
                k <> "site_bucket_prefix" /\
                exists v, In (k, v) (items cfg) /\ truthy v = false) /\
     ~ In "site_bucket_prefix" (message_keys arg) /\
     (forall k, In k (message_keys arg) -> In k (keys cfg)) /\
     message_keys arg =
     map fst
       (filter (fun kv => negb (truthy (snd kv))
                          && negb (fst kv =? "site_bucket_prefix"))
          (items cfg))) /\
  ((forall k v, In (k, v) (items cfg) -> truthy v = false ->
                k = "site_bucket_prefix") ->
   succeeds (evaluate_config_keys cfg list_keys config_name) w).
Proof.
  intros Hall. apply no_missing_keys in Hall. split.
  - intros [k0 [v0 [Hin0 [Hv0 Hne0]]]].
    assert (Hne : missing_values cfg <> []).
    { intros E. assert (Hm : In k0 (missing_values cfg))
        by (apply missing_values_spec; split; [assumption | now exists v0]).
      rewrite E in Hm. contradiction. }
    destruct (evaluate_config_keys_missing_values cfg list_keys config_name w
                Hall Hne) as [m Hm].
    eexists. eexists. split; [exact Hm|]. simpl. rewrite app_nil_r.
    split; [|split; [|split]].
    + intros k. apply missing_values_spec.
    + intros Hin. apply missing_values_spec in Hin. now destruct Hin.
    + intros k Hin. apply missing_values_spec in Hin.
      destruct Hin as [_ [v [Hin _]]].
      unfold keys, items in *. now apply (in_map fst) in Hin.
    + unfold missing_values. now rewrite filter_twice.
  - intros Hclean.
    assert (E : missing_values cfg = []).
    { destruct (missing_values cfg) as [|k ks] eqn:E; [reflexivity|].
      assert (Hm : In k (missing_values cfg)) by (rewrite E; now left).
      apply missing_values_spec in Hm. destruct Hm as [Hne [v [Hin Hv]]].
      exfalso. apply Hne. now apply (Hclean k v). }
    eexists. apply evaluate_config_keys_passes; assumption.
Qed.

Lemma missing_values_report_witness :
  exists arg w',
    evaluate_config_keys
      (("note", VNone) :: project_empty_prefix ++ [("count", VInt 0)])
      project_keys "demo" empty_world
      = (Raise (Exc KeyError arg), w') /\
    In "note" (message_keys arg) /\
    ~ In "site_bucket_prefix" (message_keys arg) /\
    message_keys arg = ["note"; "count"].
Proof.
  destruct (missing_values_report
              (("note", VNone) :: project_empty_prefix ++ [("count", VInt 0)])
              project_keys "demo" empty_world) as [Hraise _].
  - intros k Hin. apply contains_In.
    simpl in Hin.
    repeat (destruct Hin as [<- | Hin]; [reflexivity|]). contradiction.
  - destruct Hraise as [arg [w' [Hrun [Hiff [Hno [_ Hlist]]]]]].
    + exists "note", VNone. split; [now left|]. split; [reflexivity | discriminate].
    + exists arg, w'. split; [exact Hrun|]. split; [|split; [exact Hno|]].
      * apply Hiff. split; [discriminate|]. exists VNone.
        split; [now left | reflexivity].
      * rewrite Hlist. reflexivity.
Defined.

(** ** The sentinel default *)

Lemma holds_default_spec cfg key :
  holds_default cfg key = true <-> lookup cfg key = Some (VStr DEFAULT).
Proof.
  unfold holds_default. destruct (lookup cfg key) as [v|].
  - rewrite eq_str_true. split; [now intros -> | now intros [= ->]].
  - split; discriminate.
Qed.

Lemma unset_defaults_spec cfg list_keys k :
  In k (unset_defaults cfg list_keys) <->
  In k list_keys /\ lookup cfg k = Some (VStr DEFAULT).
Proof.
  unfold unset_defaults. now rewrite filter_In, holds_default_spec.
Qed.

(** One turn of the loop on a key the config holds. *)
Lemma default_loop_cons cfg key rest st w v :
  lookup cfg key = Some v ->
  default_loop cfg (key :: rest) st w =
  if eq_str v DEFAULT then
    default_loop cfg rest (true, snd st ++ [key])
      (log_add w WARNING
         [Text "The value for "; Subst key;
          Text " in the global config is set to its default value. Please fill in a proper value for this parameter."])
  else default_loop cfg rest st w.
Proof.
  intros Hv. simpl. unfold bind, lift, getitem. rewrite Hv.
  destruct (eq_str v DEFAULT); reflexivity.
Qed.

(** With every key of the list present, the loop ends normally: it sets
    [failed] when a key holds the sentinel and appends those keys to
    [list_failed]. *)
Lemma default_loop_run cfg list_keys :
  (forall k, In k list_keys -> In k (keys cfg)) ->
  forall st w, exists w',
    default_loop cfg list_keys st w =
    (Return (fst st || (0 <? length (unset_defaults cfg list_keys))%nat,
             snd st ++ unset_defaults cfg list_keys), w').
Proof.
  induction list_keys as [|key rest IH]; intros Hall st w.
  - exists w. simpl. unfold ret. rewrite orb_false_r, app_nil_r.
    now destruct st.
  - destruct (lookup_present cfg key) as [v Hv]; [apply Hall; now left|].
    assert (Hrest : forall k, In k rest -> In k (keys cfg))
      by (intros k Hk; apply Hall; now right).
    assert (Hhd : holds_default cfg key = eq_str v DEFAULT)
      by (unfold holds_default; now rewrite Hv).
    rewrite (default_loop_cons _ _ _ _ _ _ Hv).
    assert (Hcons : unset_defaults cfg (key :: rest) =
                    if eq_str v DEFAULT then key :: unset_defaults cfg rest
                    else unset_defaults cfg rest)
      by (unfold unset_defaults; simpl; now rewrite Hhd).
    rewrite Hcons. clear Hcons Hhd.
    destruct (eq_str v DEFAULT).
    + match goal with
      | |- context [default_loop cfg rest ?s ?x] =>
          destruct (IH Hrest s x) as [w' Hw']
      end.
      exists w'. rewrite Hw'. simpl. rewrite orb_true_r.
      rewrite <- app_assoc. reflexivity.
    + destruct (IH Hrest st w) as [w' Hw']. exists w'. exact Hw'.
Qed.

(** C4. For a global config that passes the key-presence and value checks:
    if one or more required keys hold the sentinel MUST_BE_SET,
    [evaluate_global_config] raises a ValueError whose list names exactly the
    required keys equal to the sentinel; if none does, it ends normally. *)
Theorem sentinel_defaults_reported cfg list_keys config_name w w1 :
  evaluate_config_keys cfg list_keys config_name w = (Return tt, w1) ->
  ((exists k, In k list_keys /\ lookup cfg k = Some (VStr DEFAULT)) ->
   exists arg w',
     evaluate_global_config cfg list_keys config_name w
       = (Raise (Exc ValueError arg), w') /\
     forall k, In k (message_keys arg) <->
               In k list_keys /\ lookup cfg k = Some (VStr DEFAULT)) /\
  ((forall k, In k list_keys -> lookup cfg k <> Some (VStr DEFAULT)) ->
   succeeds (evaluate_global_config cfg list_keys config_name) w).
Proof.
  intros Hpass.
  destruct (evaluate_config_keys_return_inv _ _ _ _ _ Hpass) as [Hk0 _].
  pose proof (proj1 (no_missing_keys _ _) Hk0) as Hk.
  destruct (default_loop_run cfg list_keys Hk (false, []) w1) as [w2 Hloop].
  simpl in Hloop.
  split.
  - intros [k0 [Hin0 Hd0]].
    assert (Hm : In k0 (unset_defaults cfg list_keys))
      by (apply unset_defaults_spec; auto).
    destruct (unset_defaults cfg list_keys) as [|k ks] eqn:E; [contradiction|].
    eexists. exists w2. split.
    + unfold evaluate_global_config, bind. rewrite Hpass, Hloop. simpl.
      reflexivity.
    + intros k'. simpl message_keys. rewrite app_nil_r, <- E.
      apply unset_defaults_spec.
  - intros Hnone.
    assert (E : unset_defaults cfg list_keys = []).
    { destruct (unset_defaults cfg list_keys) as [|k ks] eqn:E; [reflexivity|].
      assert (Hm : In k (unset_defaults cfg list_keys)) by (rewrite E; now left).
      apply unset_defaults_spec in Hm. destruct Hm as [Hin Hd].
      exfalso. now apply (Hnone k). }
    exists w2. unfold evaluate_global_config, bind.
    rewrite Hpass, Hloop, E. reflexivity.
Qed.

Lemma sentinel_defaults_reported_witness :
  (exists arg w',
     evaluate_global_config global_unset_region global_keys "global" empty_world
       = (Raise (Exc ValueError arg), w') /\
     In "region" (message_keys arg) /\ ~ In "account_id" (message_keys arg)) /\
  succeeds (evaluate_global_config global_sample global_keys "global") empty_world.
Proof.
  split.
  - destruct (sentinel_defaults_reported global_unset_region global_keys "global"
                empty_world _ eq_refl) as [Hraise _].
    destruct Hraise as [arg [w' [Hrun Hiff]]].
    + exists "region". split; [simpl; auto | reflexivity].
    + exists arg, w'. split; [exact Hrun|]. split.
      * apply Hiff. split; [simpl; auto | reflexivity].
      * intros Hin. apply Hiff in Hin. destruct Hin as [_ Hd]. discriminate.
  - destruct (sentinel_defaults_reported global_sample global_keys "global"
                empty_world _ eq_refl) as [_ Hpass].
    apply Hpass. intros k Hin.
    simpl in Hin. destruct Hin as [<- | [<- | []]]; discriminate.
Defined.

(** C10. Once the key-presence check of [evaluate_global_config] has
    passed, every [cfg[key]] of the sentinel loop finds its key: the lookup
    returns a value for each required key, the loop ends normally from any
    state, and the only exception the validator can still raise is its own
    ValueError. *)
Theorem sentinel_loop_lookups_succeed cfg list_keys config_name w w1 :
  evaluate_config_keys cfg list_keys config_name w = (Return tt, w1) ->
  (forall k, In k list_keys -> exists v, getitem cfg k = Return v) /\
  (forall st w2, exists st' w3,
      default_loop cfg list_keys st w2 = (Return st', w3)) /\
  (forall e w', evaluate_global_config cfg list_keys config_name w = (Raise e, w') ->
                exists arg, e = Exc ValueError arg).
Proof.
  intros Hpass.
  destruct (evaluate_config_keys_return_inv _ _ _ _ _ Hpass) as [Hk0 _].
  pose proof (proj1 (no_missing_keys _ _) Hk0) as Hk.
  split; [|split].
  - intros k Hin. apply getitem_present. now apply Hk.
  - intros st w2. destruct (default_loop_run cfg list_keys Hk st w2) as [w3 H3].
    eexists. exists w3. exact H3.
  - intros e w' Hrun.
    destruct (default_loop_run cfg list_keys Hk (false, []) w1) as [w2 Hloop].
    unfold evaluate_global_config, bind in Hrun.
    rewrite Hpass, Hloop in Hrun. simpl in Hrun.
    destruct (0 <? length (unset_defaults cfg list_keys))%nat.
    + unfold raise in Hrun. inversion Hrun. eexists. reflexivity.
    + discriminate.
Qed.

Lemma sentinel_loop_lookups_succeed_witness :
  (exists v, getitem global_unset_region "region" = Return v) /\
  (exists st' w3,
      default_loop global_unset_region global_keys (false, []) empty_world
        = (Return st', w3)).
Proof.
  destruct (sentinel_loop_lookups_succeed global_unset_region global_keys "global"
              empty_world _ eq_refl) as [Hget [Hloop _]].
  split.
  - apply Hget. simpl. auto.
  - apply Hloop.
Defined.

(** ** The checks of the main program *)

(** C5, as stated, fails: with [site_bucket_prefix] left out of the project
    config the key-presence check raises, naming that key. *)
Lemma omitted_prefix_is_rejected :
  ~ succeeds (main_program_checks global_sample project_without_prefix
                (mkArgs "demo")) empty_world.
Proof.
  intros [w' Hrun]. vm_compute in Hrun. discriminate.
Qed.

Lemma global_sample_passes w :
  succeeds (evaluate_global_config global_sample global_keys "global") w.
Proof.
  eexists. unfold evaluate_global_config, bind.
  rewrite (evaluate_config_keys_passes global_sample global_keys "global" w
             eq_refl eq_refl).
  reflexivity.
Qed.

(** C5, amended.  Given the global config
    {account_id: 123 (a str), region: us-east-1} and a project config that
    holds every required key, [site_bucket_prefix] included, in which every
    entry other than [site_bucket_prefix] has a non-empty value, the global
    check followed by the project check ends without raising; the value of
    [site_bucket_prefix] may be empty. *)
Theorem checks_pass_with_empty_prefix cfg a w :
  (forall k, In k project_keys -> In k (keys cfg)) ->
  (forall k v, In (k, v) (items cfg) -> k <> "site_bucket_prefix" ->
               truthy v = true) ->
  succeeds (main_program_checks global_sample cfg a) w.
Proof.
  intros Hkeys Hvalues.
  destruct (global_sample_passes w) as [w1 H1].
  assert (Hk : missing_keys cfg project_keys = [])
    by now apply no_missing_keys.
  assert (Hv : missing_values cfg = []).
  { destruct (missing_values cfg) as [|k ks] eqn:E; [reflexivity|].
    assert (Hm : In k (missing_values cfg)) by (rewrite E; now left).
    apply missing_values_spec in Hm. destruct Hm as [Hne [v [Hin Hf]]].
    rewrite (Hvalues k v Hin Hne) in Hf. discriminate. }
  eexists. unfold main_program_checks, bind. rewrite H1.
  apply evaluate_config_keys_passes; assumption.
Qed.

Lemma checks_pass_with_empty_prefix_witness :
  succeeds (main_program_checks global_sample project_empty_prefix
              (mkArgs "demo")) empty_world.
Proof.
  apply checks_pass_with_empty_prefix.
  - intros k Hin. apply contains_In. simpl in Hin.
    repeat (destruct Hin as [<- | Hin]; [reflexivity|]). contradiction.
  - intros k v Hin Hne. unfold items, project_empty_prefix in Hin. simpl in Hin.
    repeat (destruct Hin as [Heq | Hin];
            [inversion Heq; subst; try reflexivity; now elim Hne|]).
    contradiction.
Defined.

(** ** Text *)

Lemma append_assoc (s t u : string) :
  ((s ++ t) ++ u = s ++ (t ++ u))%string.
Proof. induction s as [|c s IH]; simpl; [reflexivity | now rewrite IH]. Qed.

Lemma prefix_split (sub s : string) :
  String.prefix sub s = true -> exists post, s = (sub ++ post)%string.
Proof.
  revert s. induction sub as [|c sub IH]; intros s H.
  - now exists s.
  - destruct s as [|d s]; simpl in H; [discriminate|].
    destruct (Ascii.ascii_dec c d) as [->|]; [|discriminate].
    destruct (IH s H) as [post ->]. now exists post.
Qed.

Lemma is_infix_sound (sub s : string) :
  is_infix sub s = true -> infix sub s.
Proof.
  induction s as [|c s IH]; intros H; cbn [is_infix] in H;
    apply orb_true_iff in H.
  - destruct H as [H|H]; [|discriminate].
    destruct (prefix_split _ _ H) as [post Hp].
    exists EmptyString, post. exact Hp.
  - destruct H as [H|H].
    + destruct (prefix_split _ _ H) as [post Hp].
      exists EmptyString, post. exact Hp.
    + destruct (IH H) as [pre [post ->]].
      exists (String c pre), post. reflexivity.
Qed.

Lemma infix_here (pre sub post : string) :
  infix sub (pre ++ sub ++ post)%string.
Proof. now exists pre, post. Qed.

Lemma infix_append_r (sub s t : string) :
  infix sub s -> infix sub (s ++ t)%string.
Proof.
  intros [pre [post ->]]. exists pre, (post ++ t)%string.
  now rewrite !append_assoc.
Qed.

(** ** Effects *)

Lemma extend_extend w lg1 out1 lg2 out2 :
  extend (extend w lg1 out1) lg2 out2 = extend w (lg1 ++ lg2) (out1 ++ out2).
Proof. unfold extend. simpl. now rewrite !app_assoc. Qed.

Lemma extend_nil w : extend w [] [] = w.
Proof. destruct w. unfold extend. simpl. now rewrite !app_nil_r. Qed.

Lemma uniform_ret {A} (a : A) : uniform (ret a).
Proof.
  exists (Return a), [], []. intros w. unfold ret. now rewrite extend_nil.
Qed.

Lemma uniform_raise {A} (e : exception) : uniform (@raise A e).
Proof.
  exists (Raise e), [], []. intros w. unfold raise. now rewrite extend_nil.
Qed.

Lemma uniform_lift {A} (o : outcome A) : uniform (lift o).
Proof.
  exists o, [], []. intros w. unfold lift. now rewrite extend_nil.
Qed.

Lemma uniform_emit l m : uniform (emit l m).
Proof.
  exists (Return tt), [(l, m)], []. intros w. unfold emit, extend.
  now rewrite app_nil_r.
Qed.

Lemma uniform_write_file path text : uniform (write_file path text).
Proof.
  exists (Return tt), [], [(path, text)]. intros w. unfold write_file, extend.
  now rewrite app_nil_r.
Qed.

Lemma uniform_bind {A B} (m : M A) (k : A -> M B) :
  uniform m -> (forall a, uniform (k a)) -> uniform (bind m k).
Proof.
  intros [o [lg [out Hm]]] Hk. destruct o as [a|e].
  - destruct (Hk a) as [o' [lg' [out' Hka]]].
    exists o', (lg ++ lg'), (out ++ out'). intros w.
    unfold bind. rewrite Hm, Hka. now rewrite extend_extend.
  - exists (Raise e), lg, out. intros w. unfold bind. now rewrite Hm.
Qed.

Lemma uniform_write_each targets : uniform (write_each targets).
Proof.
  induction targets as [|[path doc] rest IH]; simpl.
  - apply uniform_ret.
  - apply uniform_bind; [apply uniform_write_file | intros _; exact IH].
Qed.

Lemma skipn_length_app {A} (l out : list A) :
  skipn (length l) (l ++ out) = out.
Proof. induction l as [|x l IH]; simpl; [reflexivity | exact IH]. Qed.

Lemma texts_written_extend {A} (m : M A) w o lg out :
  m w = (o, extend w lg out) -> texts_written m w = map snd out.
Proof.
  intros H. unfold texts_written. rewrite H. simpl.
  now rewrite skipn_length_app.
Qed.

Lemma uniform_texts {A} (m : M A) :
  uniform m -> forall w1 w2,
    fst (m w1) = fst (m w2) /\ texts_written m w1 = texts_written m w2.
Proof.
  intros [o [lg [out H]]] w1 w2. split.
  - now rewrite !H.
  - now rewrite (texts_written_extend m w1 o lg out (H w1)),
                (texts_written_extend m w2 o lg out (H w2)).
Qed.

(** ** The build script *)

Lemma generate_ecr_bash_script_run py_repr cfg a cfg_global w img acc reg :
  lookup cfg "docker_image_name" = Some img ->
  lookup cfg_global "account_id" = Some acc ->
  lookup cfg_global "region" = Some reg ->
  generate_ecr_bash_script py_repr cfg a cfg_global w =
  (Return tt,
   extend w [(INFO, ecr_record)]
     [(ecr_path a,
       ecr_document (format_value py_repr img) (format_value py_repr reg)
         (registry_endpoint (format_value py_repr acc)
            (format_value py_repr reg)))]).
Proof.
  intros Himg Hacc Hreg.
  unfold generate_ecr_bash_script, bind, lift, getitem, logger_info, emit,
    write_file.
  rewrite Hacc, Hreg, Himg. reflexivity.
Qed.

Lemma export_line_in_preamble :
  infix (nl ++ export_line ++ nl)%string ecr_preamble.
Proof. apply is_infix_sound. vm_compute. reflexivity. Qed.

Lemma login_line_in_document img reg acc :
  infix (nl ++ login_line acc reg ++ nl)%string
    (ecr_document img reg (registry_endpoint acc reg)).
Proof.
  exists (ecr_preamble ++ "docker build -t " ++ img ++ " ." ++ nl ++ nl ++
          "# Remove requirements.txt" ++ nl ++ "rm -rf requirements.txt" ++ nl ++
          nl ++ "# Log into AWS and ECR")%string.
  eexists.
  unfold ecr_document, login_line. rewrite !append_assoc. reflexivity.
Qed.

(** C6. Whatever the global config, the build script that
    [generate_ecr_bash_script] writes opens with a fixed text holding the
    line that sets AWS_DEFAULT_REGION to eu-west-1, while its registry-login
    command and registry endpoint are built from the configured region. *)
Theorem ecr_script_region py_repr cfg a cfg_global w img acc reg :
  lookup cfg "docker_image_name" = Some img ->
  lookup cfg_global "account_id" = Some acc ->
  lookup cfg_global "region" = Some reg ->
  exists doc rest,
    generate_ecr_bash_script py_repr cfg a cfg_global w
      = (Return tt, extend w [(INFO, ecr_record)] [(ecr_path a, doc)]) /\
    doc = (ecr_preamble ++ rest)%string /\
    infix (nl ++ export_line ++ nl)%string ecr_preamble /\
    infix (nl ++ login_line (format_value py_repr acc)
                   (format_value py_repr reg) ++ nl)%string doc.
Proof.
  intros Himg Hacc Hreg.
  eexists. eexists. split; [|split; [|split]].
  - apply generate_ecr_bash_script_run; eassumption.
  - unfold ecr_document. reflexivity.
  - exact export_line_in_preamble.
  - apply login_line_in_document.
Qed.

Lemma ecr_script_region_witness :
  exists doc rest,
    generate_ecr_bash_script no_repr project_myimg (mkArgs "demo")
      global_sample empty_world
      = (Return tt,
         extend empty_world [(INFO, ecr_record)] [(ecr_path (mkArgs "demo"), doc)]) /\
    doc = (ecr_preamble ++ rest)%string /\
    infix (nl ++ export_line ++ nl)%string ecr_preamble /\
    infix (nl ++ login_line "123" "us-east-1" ++ nl)%string doc.
Proof.
  exact (ecr_script_region no_repr project_myimg (mkArgs "demo") global_sample
           empty_world (VStr "myimg") (VStr "123") (VStr "us-east-1")
           eq_refl eq_refl eq_refl).
Defined.

(** C7. The build script embeds the registry endpoint
    {account_id}.dkr.ecr.{region}.amazonaws.com and the build command for the
    configured image; for docker_image_name myimg, account_id 123456789012
    and region eu-west-1 it contains
    123456789012.dkr.ecr.eu-west-1.amazonaws.com and
    docker build -t myimg . *)
Theorem ecr_script_embeds_endpoint py_repr cfg a cfg_global w img acc reg :
  lookup cfg "docker_image_name" = Some img ->
  lookup cfg_global "account_id" = Some acc ->
  lookup cfg_global "region" = Some reg ->
  exists doc,
    generate_ecr_bash_script py_repr cfg a cfg_global w
      = (Return tt, extend w [(INFO, ecr_record)] [(ecr_path a, doc)]) /\
    infix (format_value py_repr acc ++ ".dkr.ecr." ++ format_value py_repr reg
             ++ ".amazonaws.com")%string doc /\
    infix ("docker build -t " ++ format_value py_repr img ++ " .")%string doc /\
    (img = VStr "myimg" -> acc = VStr "123456789012" -> reg = VStr "eu-west-1" ->
     is_infix "123456789012.dkr.ecr.eu-west-1.amazonaws.com" doc = true /\
     is_infix "docker build -t myimg ." doc = true).
Proof.
  intros Himg Hacc Hreg.
  eexists. split; [|split; [|split]].
  - apply generate_ecr_bash_script_run; eassumption.
  - destruct (login_line_in_document (format_value py_repr img)
                (format_value py_repr reg) (format_value py_repr acc))
      as [pre [post Hdoc]].
    rewrite Hdoc. unfold login_line, registry_endpoint.
    exists (pre ++ nl ++ "aws ecr get-login-password --region "
              ++ format_value py_repr reg
              ++ " | docker login --username AWS --password-stdin ")%string.
    exists (nl ++ post)%string.
    rewrite !append_assoc. reflexivity.
  - exists ecr_preamble. eexists. unfold ecr_document.
    rewrite !append_assoc. reflexivity.
  - intros -> -> ->. split; vm_compute; reflexivity.
Qed.

Lemma ecr_script_embeds_endpoint_witness :
  exists doc,
    generate_ecr_bash_script no_repr project_myimg (mkArgs "demo")
      global_ireland empty_world
      = (Return tt,
         extend empty_world [(INFO, ecr_record)] [(ecr_path (mkArgs "demo"), doc)]) /\
    is_infix "123456789012.dkr.ecr.eu-west-1.amazonaws.com" doc = true /\
    is_infix "docker build -t myimg ." doc = true.
Proof.
  destruct (ecr_script_embeds_endpoint no_repr project_myimg (mkArgs "demo")
              global_ireland empty_world (VStr "myimg") (VStr "123456789012")
              (VStr "eu-west-1") eq_refl eq_refl eq_refl)
    as [doc [Hrun [_ [_ Hsample]]]].
  exists doc. split; [exact Hrun|]. now apply Hsample.
Defined.

(** ** The variable files *)

Lemma generate_terraform_var_files_run py_repr cfg a cfg_global w
    sb sib db acc reg img :
  lookup cfg "store_bucket" = Some sb ->
  lookup cfg "site_bucket" = Some sib ->
  lookup cfg "data_bucket" = Some db ->
  lookup cfg_global "account_id" = Some acc ->
  lookup cfg_global "region" = Some reg ->
  lookup cfg "docker_image_name" = Some img ->
  generate_terraform_var_files py_repr cfg a cfg_global w =
  (Return tt,
   extend w []
     [(buckets_path a,
       buckets_document (format_value py_repr sb) (format_value py_repr sib)
         (format_value py_repr db));
      (lambda_path a,
       (buckets_document (format_value py_repr sb) (format_value py_repr sib)
          (format_value py_repr db)
        ++ image_uri_line (format_value py_repr acc) (format_value py_repr reg)
             (format_value py_repr img))%string)]).
Proof.
  intros Hsb Hsib Hdb Hacc Hreg Himg.
  unfold generate_terraform_var_files, bind, lift, getitem.
  rewrite Hsb, Hsib, Hdb, Hacc, Hreg, Himg.
  cbn [combine write_each]. unfold bind, write_file, ret, extend.
  cbn [log files listdir abspath].
  rewrite app_nil_r, <- app_assoc. reflexivity.
Qed.

Lemma lines_nonempty (s : string) : s <> EmptyString -> lines s <> [].
Proof.
  destruct s as [|c s]; [congruence|]. intros _. simpl.
  destruct (Ascii.eqb c (ascii_of_nat 10)); [discriminate|].
  destruct (lines s); discriminate.
Qed.

Lemma lines_one_line (s : string) :
  one_line s = true -> s <> EmptyString -> lines s = [s].
Proof.
  induction s as [|c s IH]; [congruence|]. intros H _.
  cbn [one_line] in H. apply andb_true_iff in H. destruct H as [Hc Hs].
  apply negb_true_iff in Hc. cbn [lines]. rewrite Hc.
  destruct s as [|d s]; [reflexivity|].
  rewrite (IH Hs); [reflexivity | discriminate].
Qed.

Lemma lines_after_newline (s t : string) :
  lines ((s ++ nl) ++ t)%string = lines (s ++ nl)%string ++ lines t.
Proof.
  induction s as [|c s IH].
  - reflexivity.
  - change (lines (String c ((s ++ nl) ++ t)) =
            lines (String c (s ++ nl)) ++ lines t).
    cbn [lines]. rewrite IH.
    destruct (Ascii.eqb c (ascii_of_nat 10)); [reflexivity|].
    destruct (lines (s ++ nl)%string) as [|l ls] eqn:E; [|reflexivity].
    exfalso. revert E. apply lines_nonempty. destruct s; discriminate.
Qed.

Lemma one_line_append (s t : string) :
  one_line (s ++ t)%string = one_line s && one_line t.
Proof.
  induction s as [|c s IH]; simpl; [reflexivity|].
  now rewrite IH, andb_assoc.
Qed.

Lemma image_uri_one_line acc reg img :
  one_line acc = true -> one_line reg = true -> one_line img = true ->
  one_line (image_uri_line acc reg img) = true.
Proof.
  intros Ha Hr Hi. unfold image_uri_line.
  rewrite !one_line_append, Ha, Hr, Hi. reflexivity.
Qed.

(** C8. [generate_terraform_var_files] writes two documents.  The first
    holds the three bucket assignments; for the buckets b1, b2 and b3 it is
    exactly the three lines assigning them to ge-bucket-name,
    ge-site-bucket-name and ge-data-bucket-name, in that order.  For every
    config the second is the first followed by one image_uri assignment built
    from account_id, region and docker_image_name, which is one more line
    when these hold no newline. *)
Theorem var_files_documents py_repr cfg a cfg_global w sb sib db acc reg img :
  lookup cfg "store_bucket" = Some sb ->
  lookup cfg "site_bucket" = Some sib ->
  lookup cfg "data_bucket" = Some db ->
  lookup cfg_global "account_id" = Some acc ->
  lookup cfg_global "region" = Some reg ->
  lookup cfg "docker_image_name" = Some img ->
  exists first second,
    generate_terraform_var_files py_repr cfg a cfg_global w
      = (Return tt,
         extend w [] [(buckets_path a, first); (lambda_path a, second)]) /\
    second = (first ++ image_uri_line (format_value py_repr acc)
                         (format_value py_repr reg)
                         (format_value py_repr img))%string /\
    (one_line (format_value py_repr acc) = true ->
     one_line (format_value py_repr reg) = true ->
     one_line (format_value py_repr img) = true ->
     lines second =
     lines first ++ [image_uri_line (format_value py_repr acc)
                       (format_value py_repr reg) (format_value py_repr img)]) /\
    (sb = VStr "b1" -> sib = VStr "b2" -> db = VStr "b3" ->
     first = String.concat nl sample_bucket_lines ++ nl /\
     lines first = sample_bucket_lines)%string.
Proof.
  intros Hsb Hsib Hdb Hacc Hreg Himg.
  eexists. eexists. split; [|split; [|split]].
  - apply generate_terraform_var_files_run; eassumption.
  - reflexivity.
  - intros Ha Hr Hi.
    assert (Hend : exists body, buckets_document (format_value py_repr sb)
                     (format_value py_repr sib) (format_value py_repr db)
                   = (body ++ nl)%string).
    { eexists. unfold buckets_document.
      rewrite <- !append_assoc. reflexivity. }
    destruct Hend as [body ->].
    rewrite lines_after_newline. f_equal.
    apply lines_one_line.
    + now apply image_uri_one_line.
    + discriminate.
  - intros -> -> ->. split; vm_compute; reflexivity.
Qed.

Lemma var_files_documents_witness :
  exists first second,
    generate_terraform_var_files no_repr project_myimg (mkArgs "demo")
      global_ireland empty_world
      = (Return tt,
         extend empty_world []
           [(buckets_path (mkArgs "demo"), first);
            (lambda_path (mkArgs "demo"), second)]) /\
    lines first = sample_bucket_lines /\
    lines second =
    sample_bucket_lines ++ [image_uri_line "123456789012" "eu-west-1" "myimg"].
Proof.
  destruct (var_files_documents no_repr project_myimg (mkArgs "demo")
              global_ireland empty_world
              (VStr "b1") (VStr "b2") (VStr "b3")
              (VStr "123456789012") (VStr "eu-west-1") (VStr "myimg")
              eq_refl eq_refl eq_refl eq_refl eq_refl eq_refl)
    as [first [second [Hrun [_ [Hlines Hsample]]]]].
  destruct Hsample as [_ Hfirst]; try reflexivity.
  exists first, second. split; [exact Hrun|]. split; [exact Hfirst|].
  rewrite <- Hfirst. apply Hlines; reflexivity.
Defined.

(** ** The provider files *)

Lemma write_provider_files_run dir_path document dirs w :
  write_provider_files dir_path document dirs w =
  (Return tt,
   extend w []
     (map (fun dir => ((abspath w (dir_path ++ dir) ++ "/provider.tf")%string,
                       document)) dirs)).
Proof.
  revert w. induction dirs as [|dir rest IH]; intros w.
  - simpl. unfold ret. now rewrite extend_nil.
  - cbn [write_provider_files map]. unfold bind, os_path_abspath, write_file.
    rewrite IH. unfold extend. cbn [log files listdir abspath].
    rewrite <- app_assoc. reflexivity.
Qed.

(** What [generate_terraform_provider_config] does in a world, by the region
    of the global config and the listing of the terraform directory. *)
Lemma generate_terraform_provider_config_run py_repr a cfg_global w :
  generate_terraform_provider_config py_repr a cfg_global w =
  match lookup cfg_global "region" with
  | None => (Raise (Exc KeyError [Subst "region"]), w)
  | Some reg =>
      match listdir w (tf_dir a) with
      | None => (Raise (Exc FileNotFoundError [Subst (tf_dir a)]), w)
      | Some dirs =>
          (Return tt,
           extend w []
             (map (fun dir =>
                     ((abspath w (tf_dir a ++ dir) ++ "/provider.tf")%string,
                      provider_document (format_value py_repr reg))) dirs))
      end
  end.
Proof.
  unfold generate_terraform_provider_config, bind, lift, getitem, os_listdir.
  destruct (lookup cfg_global "region") as [reg|]; [|reflexivity].
  fold (tf_dir a).
  destruct (listdir w (tf_dir a)) as [dirs|]; [|reflexivity].
  apply write_provider_files_run.
Qed.

Lemma texts_written_unchanged {A} (m : M A) w o :
  m w = (o, w) -> texts_written m w = [].
Proof.
  intros H. rewrite <- (extend_nil w) in H at 2.
  now rewrite (texts_written_extend m w o [] [] H).
Qed.

Lemma provider_texts py_repr a cfg_global w :
  texts_written (generate_terraform_provider_config py_repr a cfg_global) w =
  match lookup cfg_global "region", listdir w (tf_dir a) with
  | Some reg, Some dirs =>
      map (fun _ => provider_document (format_value py_repr reg)) dirs
  | _, _ => []
  end.
Proof.
  pose proof (generate_terraform_provider_config_run py_repr a cfg_global w) as H.
  destruct (lookup cfg_global "region") as [reg|].
  - destruct (listdir w (tf_dir a)) as [dirs|].
    + rewrite (texts_written_extend _ _ _ _ _ H), map_map. reflexivity.
    + exact (texts_written_unchanged _ _ _ H).
  - exact (texts_written_unchanged _ _ _ H).
Qed.

(** ** Determinism of the renderers *)

Lemma generate_ecr_bash_script_uniform py_repr cfg a cfg_global :
  uniform (generate_ecr_bash_script py_repr cfg a cfg_global).
Proof.
  unfold generate_ecr_bash_script.
  apply uniform_bind; [apply uniform_emit | intros _].
  repeat (apply uniform_bind; [apply uniform_lift | intros ?]).
  apply uniform_write_file.
Qed.

Lemma generate_terraform_var_files_uniform py_repr cfg a cfg_global :
  uniform (generate_terraform_var_files py_repr cfg a cfg_global).
Proof.
  unfold generate_terraform_var_files.
  repeat (apply uniform_bind; [apply uniform_lift | intros ?]).
  apply uniform_write_each.
Qed.

(** C9. The three renderers are deterministic.  From any two worlds, with
    the same config and global config, [generate_ecr_bash_script] and
    [generate_terraform_var_files] end the same way and write the same texts;
    every provider file that [generate_terraform_provider_config] writes
    holds one and the same text, and from worlds that list the same terraform
    directory it ends the same way and writes the same texts. *)
Theorem renderers_deterministic py_repr cfg a cfg_global w1 w2 :
  (fst (generate_ecr_bash_script py_repr cfg a cfg_global w1)
     = fst (generate_ecr_bash_script py_repr cfg a cfg_global w2) /\
   texts_written (generate_ecr_bash_script py_repr cfg a cfg_global) w1
     = texts_written (generate_ecr_bash_script py_repr cfg a cfg_global) w2) /\
  (fst (generate_terraform_var_files py_repr cfg a cfg_global w1)
     = fst (generate_terraform_var_files py_repr cfg a cfg_global w2) /\
   texts_written (generate_terraform_var_files py_repr cfg a cfg_global) w1
     = texts_written (generate_terraform_var_files py_repr cfg a cfg_global) w2) /\
  (forall t1 t2,
      In t1 (texts_written
               (generate_terraform_provider_config py_repr a cfg_global) w1) ->
      In t2 (texts_written
               (generate_terraform_provider_config py_repr a cfg_global) w2) ->
      t1 = t2) /\
  (listdir w1 (tf_dir a) = listdir w2 (tf_dir a) ->
   fst (generate_terraform_provider_config py_repr a cfg_global w1)
     = fst (generate_terraform_provider_config py_repr a cfg_global w2) /\
   texts_written (generate_terraform_provider_config py_repr a cfg_global) w1
     = texts_written (generate_terraform_provider_config py_repr a cfg_global) w2).
Proof.
  split; [|split; [|split]].
  - apply uniform_texts, generate_ecr_bash_script_uniform.
  - apply uniform_texts, generate_terraform_var_files_uniform.
  - intros t1 t2. rewrite !provider_texts.
    destruct (lookup cfg_global "region") as [reg|]; [|contradiction].
    destruct (listdir w1 (tf_dir a)) as [dirs1|]; [|contradiction].
    destruct (listdir w2 (tf_dir a)) as [dirs2|]; [|contradiction].
    rewrite !in_map_iff. intros [_ [<- _]] [_ [<- _]]. reflexivity.
  - intros Hdirs. rewrite !provider_texts, !generate_terraform_provider_config_run.
    rewrite Hdirs.
    destruct (lookup cfg_global "region") as [reg|]; [|now split].
    destruct (listdir w2 (tf_dir a)) as [dirs|]; now split.
Qed.

Lemma renderers_deterministic_witness :
  texts_written
    (generate_ecr_bash_script no_repr project_myimg (mkArgs "demo") global_ireland)
    (snd (generate_ecr_bash_script no_repr project_myimg (mkArgs "demo")
            global_ireland world_with_dirs))
  = texts_written
      (generate_ecr_bash_script no_repr project_myimg (mkArgs "demo") global_ireland)
      world_with_dirs /\
  texts_written
    (generate_terraform_provider_config no_repr (mkArgs "demo") global_ireland)
    (snd (generate_terraform_provider_config no_repr (mkArgs "demo")
            global_ireland world_with_dirs))
  = [provider_document "eu-west-1"; provider_document "eu-west-1"].
Proof.
  destruct (renderers_deterministic no_repr project_myimg (mkArgs "demo")
              global_ireland
              (snd (generate_terraform_provider_config no_repr (mkArgs "demo")
                      global_ireland world_with_dirs))
              world_with_dirs) as [_ [_ [_ Hprov]]].
  destruct (renderers_deterministic no_repr project_myimg (mkArgs "demo")
              global_ireland
              (snd (generate_ecr_bash_script no_repr project_myimg (mkArgs "demo")
                      global_ireland world_with_dirs))
              world_with_dirs) as [[_ Hecr] _].
  split; [exact Hecr|].
  destruct Hprov as [_ Htexts]; [reflexivity|].
  rewrite Htexts. reflexivity.
Defined.

(** * Further properties *)

(** ** The validators write nothing *)

Lemma keeps_files_ret {A} (a : A) : keeps_files (ret a).
Proof. intros w. reflexivity. Qed.

Lemma keeps_files_raise {A} (e : exception) : keeps_files (@raise A e).
Proof. intros w. reflexivity. Qed.

Lemma keeps_files_lift {A} (o : outcome A) : keeps_files (lift o).
Proof. intros w. reflexivity. Qed.

Lemma keeps_files_emit l m : keeps_files (emit l m).
Proof. intros w. reflexivity. Qed.

Lemma keeps_files_bind {A B} (m : M A) (k : A -> M B) :
  keeps_files m -> (forall a, keeps_files (k a)) -> keeps_files (bind m k).
Proof.
  intros Hm Hk w. unfold bind. specialize (Hm w).
  destruct (m w) as [[a|e] w1]; simpl in *.
  - now rewrite Hk.
  - assumption.
Qed.

Lemma keeps_files_evaluate_config_keys cfg list_keys config_name :
  keeps_files (evaluate_config_keys cfg list_keys config_name).
Proof.
  unfold evaluate_config_keys.
  apply keeps_files_bind; [apply keeps_files_emit | intros _].
  cbv zeta. apply keeps_files_bind.
  - destruct (0 <? _)%nat; [|apply keeps_files_ret].
    apply keeps_files_bind; [apply keeps_files_emit | intros _].
    apply keeps_files_raise.
  - intros _. destruct (0 <? _)%nat; [|apply keeps_files_ret].
    apply keeps_files_bind; [apply keeps_files_emit | intros _].
    apply keeps_files_raise.
Qed.

Lemma keeps_files_default_loop cfg list_keys :
  forall st, keeps_files (default_loop cfg list_keys st).
Proof.
  induction list_keys as [|key rest IH]; intros st.
  - apply keeps_files_ret.
  - cbn [default_loop].
    apply keeps_files_bind; [apply keeps_files_lift | intros v].
    apply keeps_files_bind; [|intros st'; apply IH].
    destruct (eq_str v DEFAULT); [|apply keeps_files_ret].
    apply keeps_files_bind; [apply keeps_files_emit | intros _].
    apply keeps_files_ret.
Qed.

Lemma keeps_files_evaluate_global_config cfg list_keys config_name :
  keeps_files (evaluate_global_config cfg list_keys config_name).
Proof.
  unfold evaluate_global_config.
  apply keeps_files_bind; [apply keeps_files_evaluate_config_keys | intros _].
  apply keeps_files_bind; [apply keeps_files_default_loop | intros [failed lf]].
  destruct failed; [apply keeps_files_raise | apply keeps_files_ret].
Qed.

(** X1. Checking the configurations writes no file, however it ends: the
    whole of step 2, from picking the sections to the last check, leaves the
    files of the world as they were. *)
Theorem configurations_checked_before_any_write cfg_all a w :
  files (snd (main_program_configurations cfg_all a w)) = files w.
Proof.
  revert w. change (keeps_files (main_program_configurations cfg_all a)).
  unfold main_program_configurations.
  apply keeps_files_bind; [apply keeps_files_emit | intros _].
  apply keeps_files_bind; [apply keeps_files_lift | intros cfg_global].
  apply keeps_files_bind.
  - destruct (getsection cfg_all (project a)); [apply keeps_files_ret|].
    apply keeps_files_bind; [apply keeps_files_emit | intros _].
    apply keeps_files_raise.
  - intros cfg. apply keeps_files_bind; [|intros _; apply keeps_files_ret].
    unfold main_program_checks.
    apply keeps_files_bind; [apply keeps_files_evaluate_global_config | intros _].
    apply keeps_files_evaluate_config_keys.
Qed.

(** ** What the sentinel loop logs *)

Lemma log_extend_nil w : log_extend w [] = w.
Proof. destruct w. unfold log_extend. simpl. now rewrite app_nil_r. Qed.

Lemma default_loop_log cfg list_keys :
  (forall k, In k list_keys -> In k (keys cfg)) ->
  forall st w,
    snd (default_loop cfg list_keys st w) =
    log_extend w
      (map (fun k => (WARNING, default_record k)) (unset_defaults cfg list_keys)).
Proof.
  induction list_keys as [|key rest IH]; intros Hall st w.
  - simpl. now rewrite log_extend_nil.
  - destruct (lookup_present cfg key) as [v Hv]; [apply Hall; now left|].
    assert (Hrest : forall k, In k rest -> In k (keys cfg))
      by (intros k Hk; apply Hall; now right).
    assert (Hhd : holds_default cfg key = eq_str v DEFAULT)
      by (unfold holds_default; now rewrite Hv).
    rewrite (default_loop_cons _ _ _ _ _ _ Hv).
    assert (Hcons : unset_defaults cfg (key :: rest) =
                    if eq_str v DEFAULT then key :: unset_defaults cfg rest
                    else unset_defaults cfg rest)
      by (unfold unset_defaults; simpl; now rewrite Hhd).
    rewrite Hcons. clear Hcons Hhd.
    destruct (eq_str v DEFAULT).
    + rewrite (IH Hrest). unfold log_extend, log_add, default_record.
      cbn [log files listdir abspath map]. now rewrite <- app_assoc.
    + apply (IH Hrest).
Qed.

(** X2. For a global config that passes the key and value checks,
    [evaluate_global_config] logs, after the record of the key check, one
    warning for each required key still at MUST_BE_SET, in the order of the
    required list, and nothing else. *)
Theorem one_warning_per_unset_default cfg list_keys config_name w w1 :
  evaluate_config_keys cfg list_keys config_name w = (Return tt, w1) ->
  snd (evaluate_global_config cfg list_keys config_name w) =
  log_extend w
    ((INFO, checking_record config_name)
       :: map (fun k => (WARNING, default_record k))
            (unset_defaults cfg list_keys)).
Proof.
  intros Hpass.
  destruct (evaluate_config_keys_return_inv _ _ _ _ _ Hpass) as [Hk0 [_ Hw1]].
  pose proof (proj1 (no_missing_keys _ _) Hk0) as Hk.
  pose proof (default_loop_log cfg list_keys Hk (false, []) w1) as Hlog.
  unfold evaluate_global_config, bind. rewrite Hpass.
  destruct (default_loop cfg list_keys (false, []) w1) as [[[failed lf]|e] w2] eqn:E;
    simpl in Hlog; subst w2 w1.
  - destruct failed; unfold raise, ret; simpl;
      unfold log_extend, log_add; cbn [log files listdir abspath];
      now rewrite <- app_assoc.
  - simpl. unfold log_extend, log_add. cbn [log files listdir abspath].
    now rewrite <- app_assoc.
Qed.

Lemma one_warning_per_unset_default_witness :
  log (snd (evaluate_global_config global_unset_region global_keys "global"
              empty_world))
  = [(INFO, checking_record "global"); (WARNING, default_record "region")].
Proof.
  rewrite (one_warning_per_unset_default global_unset_region global_keys
             "global" empty_world _ eq_refl).
  reflexivity.
Defined.

(** ** When [evaluate_config_keys] passes *)

Lemma missing_values_nil cfg :
  missing_values cfg = [] <->
  forall k v, In (k, v) (items cfg) -> truthy v = false ->
              k = "site_bucket_prefix".
Proof.
  split.
  - intros E k v Hin Hv.
    destruct (String.eqb_spec k "site_bucket_prefix") as [|Hne]; [assumption|].
    assert (Hm : In k (missing_values cfg))
      by (apply missing_values_spec; split; [assumption | now exists v]).
    rewrite E in Hm. contradiction.
  - intros H. destruct (missing_values cfg) as [|k ks] eqn:E; [reflexivity|].
    assert (Hm : In k (missing_values cfg)) by (rewrite E; now left).
    apply missing_values_spec in Hm. destruct Hm as [Hne [v [Hin Hv]]].
    exfalso. apply Hne. now apply (H k v).
Qed.

Lemma evaluate_config_keys_succeeds_iff cfg list_keys config_name w :
  succeeds (evaluate_config_keys cfg list_keys config_name) w <->
  (forall k, In k list_keys -> In k (keys cfg)) /\
  (forall k v, In (k, v) (items cfg) -> truthy v = false ->
               k = "site_bucket_prefix").
Proof.
  rewrite <- no_missing_keys, <- missing_values_nil. split.
  - intros [w' Hrun].
    destruct (evaluate_config_keys_return_inv _ _ _ _ _ Hrun) as [Hk [Hv _]].
    now split.
  - intros [Hk Hv]. eexists. now apply evaluate_config_keys_passes.
Qed.

(** X3. Whether [evaluate_config_keys] passes does not depend on the order
    of the entries of the config, on the order or repetitions of the required
    list, on the name of the config or on the world: a reordered config
    checked against a required list with the same members passes exactly
    when the original does. *)
Theorem passing_ignores_order cfg cfg' list_keys list_keys' name name' w w' :
  Permutation cfg cfg' ->
  (forall k, In k list_keys <-> In k list_keys') ->
  (succeeds (evaluate_config_keys cfg list_keys name) w <->
   succeeds (evaluate_config_keys cfg' list_keys' name') w').
Proof.
  intros Hperm Hsame. rewrite !evaluate_config_keys_succeeds_iff.
  assert (Hkeys : forall k, In k (keys cfg) <-> In k (keys cfg')).
  { intros k. unfold keys. split; apply Permutation_in.
    - now apply Permutation_map.
    - apply Permutation_sym. now apply Permutation_map. }
  assert (Hitems : forall kv, In kv (items cfg) <-> In kv (items cfg')).
  { intros kv. unfold items. split; apply Permutation_in;
      [assumption | now apply Permutation_sym]. }
  split; intros [Hk Hv]; split.
  - intros k Hin. apply Hkeys, Hk, Hsame, Hin.
  - intros k v Hin. apply Hv, Hitems, Hin.
  - intros k Hin. apply Hkeys, Hk, Hsame, Hin.
  - intros k v Hin. apply Hv, Hitems, Hin.
Qed.

Lemma passing_ignores_order_witness :
  succeeds (evaluate_config_keys (rev project_empty_prefix)
              (rev project_keys ++ project_keys) "other") world_with_dirs.
Proof.
  apply (passing_ignores_order project_empty_prefix (rev project_empty_prefix)
           project_keys (rev project_keys ++ project_keys) "demo" "other"
           empty_world world_with_dirs).
  - apply Permutation_rev.
  - intros k. rewrite in_app_iff, <- in_rev. tauto.
  - eexists. reflexivity.
Defined.

Lemma filter_all {A} (f : A -> bool) (l : list A) :
  (forall x, In x l -> f x = true) -> filter f l = l.
Proof.
  induction l as [|x l IH]; intros H; simpl; [reflexivity|].
  rewrite (H x) by now left.
  rewrite IH; [reflexivity|]. intros y Hy. apply H. now right.
Qed.

(** X4. When the config holds none of the required keys, as the empty
    config does, and the required list is not empty, [evaluate_config_keys]
    raises a KeyError that names the required list as it stands: every key,
    in its order, as often as it is listed. *)
Theorem all_required_keys_reported cfg list_keys config_name w :
  (forall k, In k list_keys -> ~ In k (keys cfg)) ->
  list_keys <> [] ->
  exists arg w',
    evaluate_config_keys cfg list_keys config_name w
      = (Raise (Exc KeyError arg), w') /\
    message_keys arg = list_keys.
Proof.
  intros Hnone Hne.
  assert (E : missing_keys cfg list_keys = list_keys).
  { unfold missing_keys. apply filter_all. intros k Hin.
    apply negb_true_iff, contains_false. now apply Hnone. }
  destruct (evaluate_config_keys_missing_keys cfg list_keys config_name w)
    as [m Hm]; [now rewrite E|].
  eexists. eexists. split; [exact Hm|].
  simpl. now rewrite app_nil_r.
Qed.

Lemma all_required_keys_reported_witness :
  exists arg w',
    evaluate_config_keys [] ["region"; "account_id"; "region"] "global"
      empty_world
      = (Raise (Exc KeyError arg), w') /\
    message_keys arg = ["region"; "account_id"; "region"].
Proof.
  apply all_required_keys_reported.
  - intros k _ Hin. exact Hin.
  - discriminate.
Defined.

(** ** Picking the sections *)

(** X5. When the document has no global section, step 2 raises
    KeyError(global) having logged only that it loads the configurations,
    whether or not the project has a section.  When it has a global section
    but none for the project, step 2 raises KeyError(project) after one
    warning that names the project, before any check of the global
    section. *)
Theorem missing_section_errors cfg_all a w :
  (section cfg_all "global" = None ->
   main_program_configurations cfg_all a w
   = (Raise (Exc KeyError [Subst "global"]),
      log_extend w [(INFO, loading_record)])) /\
  (section cfg_all "global" <> None ->
   section cfg_all (project a) = None ->
   main_program_configurations cfg_all a w
   = (Raise (Exc KeyError [Subst (project a)]),
      log_extend w [(INFO, loading_record); (WARNING, not_found_record a)])).
Proof.
  split.
  - intros Hg. unfold main_program_configurations, bind, lift, getsection.
    rewrite Hg. reflexivity.
  - intros Hg Hp. unfold main_program_configurations, bind, lift, getsection.
    destruct (section cfg_all "global") as [g|]; [|congruence].
    rewrite Hp. unfold logger_info, logger_warning, emit, raise, log_extend.
    cbn [log files listdir abspath fst snd]. now rewrite <- app_assoc.
Qed.

Lemma missing_section_errors_witness :
  main_program_configurations document_without_global (mkArgs "demo") empty_world
  = (Raise (Exc KeyError [Subst "global"]),
     log_extend empty_world [(INFO, loading_record)]) /\
  main_program_configurations document_sample (mkArgs "other") empty_world
  = (Raise (Exc KeyError [Subst "other"]),
     log_extend empty_world
       [(INFO, loading_record); (WARNING, not_found_record (mkArgs "other"))]).
Proof.
  split.
  - apply (missing_section_errors document_without_global (mkArgs "demo")
             empty_world). reflexivity.
  - apply (missing_section_errors document_sample (mkArgs "other") empty_world).
    + discriminate.
    + reflexivity.
Defined.

(** When both sections are there, step 2 ends as the two checks end on
    them, run after the loading record; when they pass it hands the two
    sections on to the later steps. *)
Lemma configurations_loaded_and_checked cfg_all a w cfg_global cfg :
  section cfg_all "global" = Some cfg_global ->
  section cfg_all (project a) = Some cfg ->
  main_program_configurations cfg_all a w =
  match main_program_checks cfg_global cfg a (log_extend w [(INFO, loading_record)]) with
  | (Return _, w') => (Return (cfg_global, cfg), w')
  | (Raise e, w') => (Raise e, w')
  end.
Proof.
  intros Hg Hp. unfold main_program_configurations, bind, lift, getsection.
  rewrite Hg, Hp. unfold logger_info, emit, ret. cbn [fst snd].
  fold (log_extend w [(INFO, loading_record)]).
  destruct (main_program_checks cfg_global cfg a _) as [[[]|e] w']; reflexivity.
Qed.

Lemma configurations_loaded_and_checked_witness :
  fst (main_program_configurations document_sample (mkArgs "demo") empty_world)
  = Return (global_sample, project_empty_prefix).
Proof.
  rewrite (configurations_loaded_and_checked document_sample (mkArgs "demo")
             empty_world global_sample project_empty_prefix eq_refl eq_refl).
  reflexivity.
Defined.

(** ** Merging the global config into the project config *)

Lemma lookup_setitem d key v k :
  lookup (setitem d key v) k = if key =? k then Some v else lookup d k.
Proof.
  induction d as [|[k0 u] rest IH]; simpl; [reflexivity|].
  destruct (String.eqb_spec k0 key) as [->|Hne]; simpl.
  - destruct (String.eqb_spec key k); reflexivity.
  - rewrite IH. destruct (String.eqb_spec k0 k) as [->|]; [|reflexivity].
    destruct (String.eqb_spec key k) as [->|]; [congruence | reflexivity].
Qed.

Lemma contains_setitem d key v k :
  contains (setitem d key v) k = (key =? k) || contains d k.
Proof.
  unfold contains, keys.
  induction d as [|[k0 u] rest IH]; simpl; [reflexivity|].
  destruct (String.eqb_spec k0 key) as [->|Hne]; simpl.
  - destruct (key =? k); reflexivity.
  - rewrite IH. destruct (k0 =? k), (key =? k); reflexivity.
Qed.

Lemma keys_setitem d key v :
  keys (setitem d key v) = if contains d key then keys d else keys d ++ [key].
Proof.
  unfold contains, keys.
  induction d as [|[k0 u] rest IH]; simpl; [reflexivity|].
  destruct (String.eqb_spec k0 key) as [->|Hne]; simpl; [reflexivity|].
  rewrite IH. destruct (existsb _ (map fst rest)); reflexivity.
Qed.

Lemma setitem_wf d key v : dict_wf d -> dict_wf (setitem d key v).
Proof.
  unfold dict_wf. intros Hwf. rewrite keys_setitem.
  destruct (contains d key) eqn:E; [assumption|].
  apply contains_false in E.
  apply NoDup_rev in Hwf. rewrite <- (rev_involutive (keys d ++ [key])).
  apply NoDup_rev. rewrite rev_app_distr. simpl.
  constructor; [now rewrite <- in_rev | assumption].
Qed.

Lemma setitem_fresh d key v :
  ~ In key (keys d) -> setitem d key v = d ++ [(key, v)].
Proof.
  unfold keys. induction d as [|[k0 u] rest IH]; simpl; intros H; [reflexivity|].
  destruct (String.eqb_spec k0 key) as [->|Hne]; [tauto|].
  rewrite IH; [reflexivity | tauto].
Qed.

Lemma update_cons d k v other :
  update d ((k, v) :: other) = update (setitem d k v) other.
Proof. reflexivity. Qed.

Lemma update_wf d other : dict_wf d -> dict_wf (update d other).
Proof.
  revert d. induction other as [|[k v] other IH]; intros d Hwf; [assumption|].
  rewrite update_cons. apply IH. now apply setitem_wf.
Qed.

Lemma update_lookup d other k :
  dict_wf other ->
  lookup (update d other) k =
  match lookup other k with Some v => Some v | None => lookup d k end.
Proof.
  revert d. induction other as [|[k0 v0] other IH]; intros d Hwf; [reflexivity|].
  unfold dict_wf in Hwf. simpl in Hwf. inversion Hwf as [|? ? Hnotin Hwf']; subst.
  rewrite update_cons, (IH _ Hwf'), lookup_setitem. simpl.
  destruct (String.eqb_spec k0 k) as [->|Hne]; [|reflexivity].
  destruct (lookup other k) as [v|] eqn:E; [|reflexivity].
  exfalso. apply Hnotin. apply lookup_In in E.
  now apply (in_map fst) in E.
Qed.

Lemma update_keys d other :
  dict_wf other ->
  keys (update d other) =
  keys d ++ filter (fun k => negb (contains d k)) (keys other).
Proof.
  revert d. induction other as [|[k0 v0] other IH]; intros d Hwf.
  - simpl. now rewrite app_nil_r.
  - unfold dict_wf in Hwf. simpl in Hwf.
    inversion Hwf as [|? ? Hnotin Hwf']; subst.
    rewrite update_cons, (IH _ Hwf'), keys_setitem.
    assert (Hfilter :
      filter (fun k => negb (contains (setitem d k0 v0) k)) (keys other)
      = filter (fun k => negb (contains d k)) (keys other)).
    { apply filter_ext_in. intros k Hin. rewrite contains_setitem.
      destruct (String.eqb_spec k0 k) as [->|]; [contradiction | reflexivity]. }
    rewrite Hfilter. simpl.
    destruct (contains d k0); simpl; [reflexivity|].
    now rewrite <- app_assoc.
Qed.

Lemma update_disjoint d other :
  dict_wf other ->
  (forall k, In k (keys other) -> ~ In k (keys d)) ->
  update d other = d ++ other.
Proof.
  revert d. induction other as [|[k0 v0] other IH]; intros d Hwf Hdis.
  - simpl. now rewrite app_nil_r.
  - unfold dict_wf in Hwf. simpl in Hwf.
    inversion Hwf as [|? ? Hnotin Hwf']; subst.
    rewrite update_cons, setitem_fresh by (apply Hdis; now left).
    rewrite IH; [now rewrite <- app_assoc | assumption |].
    intros k Hin. unfold keys. rewrite map_app, in_app_iff. simpl.
    intros [Hd | [<- | []]].
    + apply (Hdis k); [now right | assumption].
    + contradiction.
Qed.

Lemma update_nil a : dict_wf a -> update [] a = a.
Proof. intros Hwf. now apply update_disjoint. Qed.

(** X6. In the merged config [{**cfg, **cfg_global}] the value of a key is
    the global one when the global config holds the key, and the project's
    otherwise: on a collision the global config wins. *)
Theorem merged_lookup_global_wins cfg cfg_global k :
  dict_wf cfg -> dict_wf cfg_global ->
  lookup (dict_unpack cfg cfg_global) k =
  match lookup cfg_global k with
  | Some v => Some v
  | None => lookup cfg k
  end.
Proof.
  intros Hc Hg. unfold dict_unpack.
  now rewrite (update_lookup _ _ _ Hg), (update_nil _ Hc).
Qed.

Lemma merged_lookup_global_wins_witness :
  lookup (dict_unpack project_with_region global_sample) "region"
    = Some (VStr "us-east-1") /\
  lookup (dict_unpack project_with_region global_sample) "site_name"
    = Some (VStr "docs").
Proof.
  assert (Hc : dict_wf project_with_region)
    by (repeat constructor; simpl; intuition discriminate).
  assert (Hg : dict_wf global_sample)
    by (repeat constructor; simpl; intuition discriminate).
  split.
  - rewrite (merged_lookup_global_wins _ _ "region" Hc Hg). reflexivity.
  - rewrite (merged_lookup_global_wins _ _ "site_name" Hc Hg). reflexivity.
Defined.

(** X7. The merged config holds each key once.  Its keys are those of the
    project config in their order, a key that both configs hold staying at
    its place in the project config, followed by the keys only the global
    config holds, in their order. *)
Theorem merged_keys_order cfg cfg_global :
  dict_wf cfg -> dict_wf cfg_global ->
  dict_wf (dict_unpack cfg cfg_global) /\
  keys (dict_unpack cfg cfg_global) =
  keys cfg ++ filter (fun k => negb (contains cfg k)) (keys cfg_global).
Proof.
  intros Hc Hg. unfold dict_unpack. rewrite (update_nil _ Hc). split.
  - now apply update_wf.
  - now apply update_keys.
Qed.

Lemma merged_keys_order_witness :
  keys (dict_unpack project_with_region global_sample)
  = ["site_name"; "region"; "account_id"].
Proof.
  assert (Hc : dict_wf project_with_region)
    by (repeat constructor; simpl; intuition discriminate).
  assert (Hg : dict_wf global_sample)
    by (repeat constructor; simpl; intuition discriminate).
  destruct (merged_keys_order _ _ Hc Hg) as [_ Hkeys].
  rewrite Hkeys. reflexivity.
Defined.

(** ** The Great Expectations document *)

Lemma contains_lookup cfg key :
  contains cfg key = match lookup cfg key with Some _ => true | None => false end.
Proof.
  unfold contains, keys. induction cfg as [|[k v] rest IH]; simpl; [reflexivity|].
  destruct (k =? key); [reflexivity | exact IH].
Qed.

Lemma generate_ge_config_base_yaml_run py_repr cfg a uuid4 w b p sn sb sp :
  lookup cfg "store_bucket" = Some b ->
  lookup cfg "store_bucket_prefix" = Some p ->
  lookup cfg "site_name" = Some sn ->
  lookup cfg "site_bucket" = Some sb ->
  lookup cfg "site_bucket_prefix" = Some sp ->
  generate_ge_config_base_yaml py_repr cfg a uuid4 w =
  (Return
     (ge_document
        (format_value py_repr b) (format_value py_repr p)
        (format_value py_repr b) (format_value py_repr p)
        (format_value py_repr b) (format_value py_repr p)
        (format_value py_repr b) (format_value py_repr p)
        (format_value py_repr sn) (format_value py_repr sb)
        (format_value py_repr sp) uuid4),
   log_extend w [(INFO, ge_record)]).
Proof.
  intros Hb Hp Hsn Hsb Hsp.
  unfold generate_ge_config_base_yaml, bind, lift, getitem, logger_info, emit, ret.
  rewrite Hb, Hp, Hsn, Hsb, Hsp. reflexivity.
Qed.

(** X9. [generate_ge_config] builds its document exactly when the config
    holds store_bucket, store_bucket_prefix, site_name, site_bucket and
    site_bucket_prefix; otherwise it raises the KeyError of the first of
    these, in this order, that the config lacks, after its one log record. *)
Theorem ge_config_first_missing_key py_repr cfg a uuid4 w :
  match first_absent cfg ge_keys with
  | Some k =>
      generate_ge_config_base_yaml py_repr cfg a uuid4 w
      = (Raise (Exc KeyError [Subst k]), log_extend w [(INFO, ge_record)])
  | None =>
      exists text,
        generate_ge_config_base_yaml py_repr cfg a uuid4 w
        = (Return text, log_extend w [(INFO, ge_record)])
  end.
Proof.
  unfold first_absent, ge_keys. cbn [find]. rewrite !contains_lookup.
  destruct (lookup cfg "store_bucket") as [b|] eqn:Hb; cbn [negb];
    [|unfold generate_ge_config_base_yaml, bind, lift, getitem, logger_info, emit;
      rewrite Hb; reflexivity].
  destruct (lookup cfg "store_bucket_prefix") as [p|] eqn:Hp; cbn [negb];
    [|unfold generate_ge_config_base_yaml, bind, lift, getitem, logger_info, emit;
      rewrite Hb, Hp; reflexivity].
  destruct (lookup cfg "site_name") as [sn|] eqn:Hsn; cbn [negb];
    [|unfold generate_ge_config_base_yaml, bind, lift, getitem, logger_info, emit;
      rewrite Hb, Hp, Hsn; reflexivity].
  destruct (lookup cfg "site_bucket") as [sb|] eqn:Hsb; cbn [negb];
    [|unfold generate_ge_config_base_yaml, bind, lift, getitem, logger_info, emit;
      rewrite Hb, Hp, Hsn, Hsb; reflexivity].
  destruct (lookup cfg "site_bucket_prefix") as [sp|] eqn:Hsp; cbn [negb];
    [|unfold generate_ge_config_base_yaml, bind, lift, getitem, logger_info, emit;
      rewrite Hb, Hp, Hsn, Hsb, Hsp; reflexivity].
  eexists. apply generate_ge_config_base_yaml_run; eassumption.
Qed.

Lemma append_inv_head (s a b : string) :
  (s ++ a = s ++ b)%string -> a = b.
Proof.
  induction s as [|c s IH]; simpl; intros H; [assumption|].
  injection H as H. now apply IH.
Qed.

Lemma length_append (s t : string) :
  String.length (s ++ t) = String.length s + String.length t.
Proof. induction s as [|c s IH]; simpl; [reflexivity | now rewrite IH]. Qed.

Lemma append_inv_tail (a b t : string) :
  (a ++ t = b ++ t)%string -> a = b.
Proof.
  revert b. induction a as [|c a IH]; intros [|d b] H.
  - reflexivity.
  - apply (f_equal String.length) in H. simpl in H.
    rewrite length_append in H. lia.
  - apply (f_equal String.length) in H. simpl in H.
    rewrite length_append in H. lia.
  - simpl in H. injection H as -> H. f_equal. now apply IH.
Qed.

Lemma ge_document_identifier b1 p1 b2 p2 b3 p3 b4 p4 sn sb sp u1 u2 :
  ge_document b1 p1 b2 p2 b3 p3 b4 p4 sn sb sp u1
  = ge_document b1 p1 b2 p2 b3 p3 b4 p4 sn sb sp u2 ->
  u1 = u2.
Proof.
  unfold ge_document. intros H.
  repeat apply append_inv_head in H.
  now apply append_inv_tail in H.
Qed.

Lemma generate_ge_config_base_yaml_cases py_repr cfg a :
  (exists k, forall uuid4 w,
      fst (generate_ge_config_base_yaml py_repr cfg a uuid4 w)
      = Raise (Exc KeyError [Subst k])) \/
  (exists b p sn sb sp, forall uuid4 w,
      generate_ge_config_base_yaml py_repr cfg a uuid4 w =
      (Return
         (ge_document
            (format_value py_repr b) (format_value py_repr p)
            (format_value py_repr b) (format_value py_repr p)
            (format_value py_repr b) (format_value py_repr p)
            (format_value py_repr b) (format_value py_repr p)
            (format_value py_repr sn) (format_value py_repr sb)
            (format_value py_repr sp) uuid4),
       log_extend w [(INFO, ge_record)])).
Proof.
  destruct (lookup cfg "store_bucket") as [b|] eqn:Hb;
    [|left; eexists; intros;
      unfold generate_ge_config_base_yaml, bind, lift, getitem, logger_info, emit;
      rewrite Hb; reflexivity].
  destruct (lookup cfg "store_bucket_prefix") as [p|] eqn:Hp;
    [|left; eexists; intros;
      unfold generate_ge_config_base_yaml, bind, lift, getitem, logger_info, emit;
      rewrite Hb, Hp; reflexivity].
  destruct (lookup cfg "site_name") as [sn|] eqn:Hsn;
    [|left; eexists; intros;
      unfold generate_ge_config_base_yaml, bind, lift, getitem, logger_info, emit;
      rewrite Hb, Hp, Hsn; reflexivity].
  destruct (lookup cfg "site_bucket") as [sb|] eqn:Hsb;
    [|left; eexists; intros;
      unfold generate_ge_config_base_yaml, bind, lift, getitem, logger_info, emit;
      rewrite Hb, Hp, Hsn, Hsb; reflexivity].
  destruct (lookup cfg "site_bucket_prefix") as [sp|] eqn:Hsp;
    [|left; eexists; intros;
      unfold generate_ge_config_base_yaml, bind, lift, getitem, logger_info, emit;
      rewrite Hb, Hp, Hsn, Hsb, Hsp; reflexivity].
  right. exists b, p, sn, sb, sp. intros.
  now apply generate_ge_config_base_yaml_run.
Qed.

(** X10. The identifier is the only thing that tells two documents of the
    same config apart: built from the same config, two documents are equal
    exactly when the identifiers drawn for them are equal. *)
Theorem ge_config_identifier_decides py_repr cfg a u1 u2 w1 w2 t1 t2 :
  fst (generate_ge_config_base_yaml py_repr cfg a u1 w1) = Return t1 ->
  fst (generate_ge_config_base_yaml py_repr cfg a u2 w2) = Return t2 ->
  (t1 = t2 <-> u1 = u2).
Proof.
  intros H1 H2.
  destruct (generate_ge_config_base_yaml_cases py_repr cfg a)
    as [[k Hraise] | [b [p [sn [sb [sp Hrun]]]]]].
  - rewrite Hraise in H1. discriminate.
  - rewrite Hrun in H1, H2. simpl in H1, H2.
    injection H1 as <-. injection H2 as <-. split.
    + apply ge_document_identifier.
    + now intros ->.
Qed.

Lemma ge_config_identifier_decides_witness :
  exists t1 t2,
    fst (generate_ge_config_base_yaml no_repr project_empty_prefix (mkArgs "demo")
           "id-1" empty_world) = Return t1 /\
    fst (generate_ge_config_base_yaml no_repr project_empty_prefix (mkArgs "demo")
           "id-2" world_with_dirs) = Return t2 /\
    t1 <> t2.
Proof.
  eexists. eexists. split; [reflexivity|]. split; [reflexivity|].
  intros H.
  apply (ge_config_identifier_decides no_repr project_empty_prefix (mkArgs "demo")
           "id-1" "id-2" empty_world world_with_dirs _ _ eq_refl eq_refl) in H.
  discriminate.
Defined.

Lemma infix_skip (sub a rest : string) :
  infix sub rest -> infix sub (a ++ rest)%string.
Proof.
  intros [pre [post ->]]. exists (a ++ pre)%string, post.
  now rewrite append_assoc.
Qed.

Lemma prefix_of_here (a rest : string) : prefix_of a (a ++ rest)%string.
Proof. now exists rest. Qed.

Lemma prefix_of_step (a sub rest : string) :
  prefix_of sub rest -> prefix_of (a ++ sub)%string (a ++ rest)%string.
Proof.
  intros [post ->]. exists post. now rewrite append_assoc.
Qed.

Lemma infix_of_prefix (sub s : string) : prefix_of sub s -> infix sub s.
Proof. intros [post ->]. now exists EmptyString, post. Qed.

(** Finds a text given by its parts in a document given by its parts. *)
Ltac find_infix :=
  match goal with
  | |- infix (?h ++ _)%string (?h ++ _)%string =>
      apply infix_of_prefix; repeat apply prefix_of_step; apply prefix_of_here
  | |- infix _ (_ ++ _)%string => apply infix_skip; find_infix
  end.

Lemma ge_document_stores b1 p1 b2 p2 b3 p3 b4 p4 sn sb sp u :
  infix (store_backend b1 p1 "/expectations/")
    (ge_document b1 p1 b2 p2 b3 p3 b4 p4 sn sb sp u) /\
  infix (store_backend b2 p2 "/validations/")
    (ge_document b1 p1 b2 p2 b3 p3 b4 p4 sn sb sp u) /\
  infix (store_backend b3 p3 "/checkpoints/")
    (ge_document b1 p1 b2 p2 b3 p3 b4 p4 sn sb sp u) /\
  infix (store_backend b4 p4 "/profiles/")
    (ge_document b1 p1 b2 p2 b3 p3 b4 p4 sn sb sp u).
Proof.
  unfold ge_document, store_backend.
  repeat split; find_infix.
Qed.

Lemma ge_document_site b1 p1 b2 p2 b3 p3 b4 p4 sn sb sp u :
  infix (nl ++ "    " ++ sn ++ ":" ++ nl)%string
    (ge_document b1 p1 b2 p2 b3 p3 b4 p4 sn sb sp u) /\
  infix ("        bucket: " ++ sb ++ nl ++ "        prefix: " ++ sp ++ nl)%string
    (ge_document b1 p1 b2 p2 b3 p3 b4 p4 sn sb sp u).
Proof.
  unfold ge_document.
  split; find_infix.
Qed.

Lemma validated_lookup cfg list_keys config_name w k :
  succeeds (evaluate_config_keys cfg list_keys config_name) w ->
  In k list_keys ->
  exists v, lookup cfg k = Some v /\ (k <> "site_bucket_prefix" -> truthy v = true).
Proof.
  intros Hs Hin. apply evaluate_config_keys_succeeds_iff in Hs.
  destruct Hs as [Hk Hv].
  destruct (lookup_present cfg k (Hk k Hin)) as [v Hlk].
  exists v. split; [assumption|]. intros Hne.
  destruct (truthy v) eqn:E; [reflexivity|].
  exfalso. apply Hne. apply (Hv k v); [now apply lookup_In | assumption].
Qed.

(** X11. For a project config that passes [evaluate_config_keys] on the
    project keys, [generate_ge_config] builds its document, and the document
    names the store bucket and the store prefix, both non-empty, under each
    of the four stores (expectations, validations, checkpoints, profiles),
    the site name as a key, and the site bucket with the site prefix. *)
Theorem ge_config_embeds_validated_values py_repr cfg a config_name w0 uuid4 w :
  succeeds (evaluate_config_keys cfg project_keys config_name) w0 ->
  exists b p sn sb sp text,
    lookup cfg "store_bucket" = Some b /\ truthy b = true /\
    lookup cfg "store_bucket_prefix" = Some p /\ truthy p = true /\
    lookup cfg "site_name" = Some sn /\
    lookup cfg "site_bucket" = Some sb /\
    lookup cfg "site_bucket_prefix" = Some sp /\
    generate_ge_config_base_yaml py_repr cfg a uuid4 w
      = (Return text, log_extend w [(INFO, ge_record)]) /\
    infix (store_backend (format_value py_repr b) (format_value py_repr p)
             "/expectations/") text /\
    infix (store_backend (format_value py_repr b) (format_value py_repr p)
             "/validations/") text /\
    infix (store_backend (format_value py_repr b) (format_value py_repr p)
             "/checkpoints/") text /\
    infix (store_backend (format_value py_repr b) (format_value py_repr p)
             "/profiles/") text /\
    infix (nl ++ "    " ++ format_value py_repr sn ++ ":" ++ nl)%string text /\
    infix (store_backend (format_value py_repr sb) (format_value py_repr sp)
             EmptyString) text.
Proof.
  intros Hs.
  destruct (validated_lookup _ _ _ _ "store_bucket" Hs) as [b [Hb Tb]];
    [simpl; tauto|].
  destruct (validated_lookup _ _ _ _ "store_bucket_prefix" Hs) as [p [Hp Tp]];
    [simpl; tauto|].
  destruct (validated_lookup _ _ _ _ "site_name" Hs) as [sn [Hsn _]];
    [simpl; tauto|].
  destruct (validated_lookup _ _ _ _ "site_bucket" Hs) as [sb [Hsb _]];
    [simpl; tauto|].
  destruct (validated_lookup _ _ _ _ "site_bucket_prefix" Hs) as [sp [Hsp _]];
    [simpl; tauto|].
  exists b, p, sn, sb, sp. eexists.
  repeat (split; [first [eassumption | apply Tb; discriminate
                         | apply Tp; discriminate]|]).
  split; [apply (generate_ge_config_base_yaml_run py_repr cfg a uuid4 w
                   b p sn sb sp); assumption|].
  pose proof (ge_document_stores
                (format_value py_repr b) (format_value py_repr p)
                (format_value py_repr b) (format_value py_repr p)
                (format_value py_repr b) (format_value py_repr p)
                (format_value py_repr b) (format_value py_repr p)
                (format_value py_repr sn) (format_value py_repr sb)
                (format_value py_repr sp) uuid4) as [H1 [H2 [H3 H4]]].
  pose proof (ge_document_site
                (format_value py_repr b) (format_value py_repr p)
                (format_value py_repr b) (format_value py_repr p)
                (format_value py_repr b) (format_value py_repr p)
                (format_value py_repr b) (format_value py_repr p)
                (format_value py_repr sn) (format_value py_repr sb)
                (format_value py_repr sp) uuid4) as [H5 H6].
  repeat (split; [assumption|]).
  unfold store_backend. exact H6.
Qed.

Lemma ge_config_embeds_validated_values_witness :
  exists text,
    fst (generate_ge_config_base_yaml no_repr project_empty_prefix (mkArgs "demo")
           "id-1" empty_world) = Return text /\
    infix (store_backend "store" "ge" "/profiles/") text /\
    infix (store_backend "site" "None" EmptyString) text.
Proof.
  destruct (ge_config_embeds_validated_values no_repr project_empty_prefix
              (mkArgs "demo") "demo" empty_world "id-1" empty_world)
    as [b [p [sn [sb [sp [text H]]]]]].
  - eexists. reflexivity.
  - destruct H as [Hb [_ [Hp [_ [_ [Hsb [Hsp [Hrun [_ [_ [_ [H4 [_ H6]]]]]]]]]]]]].
    exists text. rewrite Hrun. split; [reflexivity|].
    injection Hb as <-. injection Hp as <-. injection Hsb as <-.
    injection Hsp as <-. split; assumption.
Defined.

(** X12. The exemption lets [site_bucket_prefix] pass the checks with no
    value; [generate_ge_config] then writes the text of that value into the
    document: for a key given without a value, which loads as None, the
    prefix line of the site store reads None. *)
Theorem empty_site_prefix_is_rendered_as_none py_repr cfg a config_name w0 uuid4 w :
  succeeds (evaluate_config_keys cfg project_keys config_name) w0 ->
  lookup cfg "site_bucket_prefix" = Some VNone ->
  exists text sb,
    lookup cfg "site_bucket" = Some sb /\
    fst (generate_ge_config_base_yaml py_repr cfg a uuid4 w) = Return text /\
    infix ("        bucket: " ++ format_value py_repr sb ++ nl ++
           "        prefix: None" ++ nl)%string text.
Proof.
  intros Hs Hsp.
  destruct (validated_lookup _ _ _ _ "store_bucket" Hs) as [b [Hb _]];
    [simpl; tauto|].
  destruct (validated_lookup _ _ _ _ "store_bucket_prefix" Hs) as [p [Hp _]];
    [simpl; tauto|].
  destruct (validated_lookup _ _ _ _ "site_name" Hs) as [sn [Hsn _]];
    [simpl; tauto|].
  destruct (validated_lookup _ _ _ _ "site_bucket" Hs) as [sb [Hsb _]];
    [simpl; tauto|].
  eexists. exists sb. split; [assumption|].
  rewrite (generate_ge_config_base_yaml_run py_repr cfg a uuid4 w _ _ _ _ _
             Hb Hp Hsn Hsb Hsp).
  split; [reflexivity|].
  apply (ge_document_site _ _ _ _ _ _ _ _ _ _ (format_value py_repr VNone)).
Qed.

Lemma empty_site_prefix_is_rendered_as_none_witness :
  exists text,
    fst (generate_ge_config_base_yaml no_repr project_empty_prefix (mkArgs "demo")
           "id-1" empty_world) = Return text /\
    infix ("        bucket: site" ++ nl ++ "        prefix: None" ++ nl)%string text.
Proof.
  destruct (empty_site_prefix_is_rendered_as_none no_repr project_empty_prefix
              (mkArgs "demo") "demo" empty_world "id-1" empty_world)
    as [text [sb [Hsb [Hrun Hin]]]].
  - eexists. reflexivity.
  - reflexivity.
  - exists text. split; [exact Hrun|]. injection Hsb as <-. exact Hin.
Defined.

(** ** The renderers, when a key is missing *)


(** ** The renderers, after the checks *)

Lemma main_program_checks_inv cfg_global cfg a w :
  succeeds (main_program_checks cfg_global cfg a) w ->
  (forall k, In k global_keys -> In k (keys cfg_global)) /\
  (forall k, In k project_keys -> In k (keys cfg)).
Proof.
  intros [w' Hrun]. unfold main_program_checks, bind in Hrun.
  destruct (evaluate_global_config cfg_global global_keys "global" w)
    as [[[]|e] w1] eqn:Eg; [|discriminate].
  split.
  - unfold evaluate_global_config, bind in Eg.
    destruct (evaluate_config_keys cfg_global global_keys "global" w)
      as [[[]|e] w2] eqn:Ek; [|discriminate].
    apply evaluate_config_keys_return_inv in Ek.
    now apply no_missing_keys.
  - apply evaluate_config_keys_return_inv in Hrun.
    now apply no_missing_keys.
Qed.

(** ** One image, one region *)

Lemma endpoint_image acc reg img :
  (registry_endpoint acc reg ++ "/" ++ img ++ ":latest")%string
  = image_uri acc reg img.
Proof.
  unfold registry_endpoint, image_uri. rewrite !append_assoc. reflexivity.
Qed.

Lemma image_uri_line_image acc reg img :
  image_uri_line acc reg img
  = ("image_uri = " ++ dq ++ image_uri acc reg img ++ dq)%string.
Proof.
  unfold image_uri_line, image_uri. rewrite !append_assoc. reflexivity.
Qed.

Lemma suffix_of_refl (s : string) : suffix_of s s.
Proof. now exists EmptyString. Qed.

Lemma suffix_of_skip (sub a rest : string) :
  suffix_of sub rest -> suffix_of sub (a ++ rest)%string.
Proof.
  intros [pre ->]. exists (a ++ pre)%string. now rewrite append_assoc.
Qed.

Ltac find_suffix :=
  match goal with
  | |- suffix_of ?s ?s => apply suffix_of_refl
  | |- suffix_of _ (_ ++ _)%string => apply suffix_of_skip; find_suffix
  end.

Lemma ecr_document_pushes img reg acc :
  suffix_of ("docker push " ++ image_uri acc reg img)%string
    (ecr_document img reg (registry_endpoint acc reg)).
Proof.
  rewrite <- endpoint_image. unfold ecr_document. find_suffix.
Qed.

(** X17. The build script and the lambda variable file name the same
    image: the script ends by pushing
    {account_id}.dkr.ecr.{region}.amazonaws.com/{docker_image_name}:latest,
    and the image_uri assignment that the lambda variable file adds to the
    buckets file is that same text between double quotes. *)
Theorem pushed_image_is_lambda_image py_repr cfg a cfg_global w
    sb sib db acc reg img :
  lookup cfg "store_bucket" = Some sb ->
  lookup cfg "site_bucket" = Some sib ->
  lookup cfg "data_bucket" = Some db ->
  lookup cfg_global "account_id" = Some acc ->
  lookup cfg_global "region" = Some reg ->
  lookup cfg "docker_image_name" = Some img ->
  exists script first second,
    generate_ecr_bash_script py_repr cfg a cfg_global w
      = (Return tt, extend w [(INFO, ecr_record)] [(ecr_path a, script)]) /\
    generate_terraform_var_files py_repr cfg a cfg_global w
      = (Return tt,
         extend w [] [(buckets_path a, first); (lambda_path a, second)]) /\
    suffix_of
      ("docker push " ++ image_uri (format_value py_repr acc)
                           (format_value py_repr reg)
                           (format_value py_repr img))%string script /\
    second =
    (first ++ "image_uri = " ++ dq ++
     image_uri (format_value py_repr acc) (format_value py_repr reg)
       (format_value py_repr img) ++ dq)%string.
Proof.
  intros Hsb Hsib Hdb Hacc Hreg Himg.
  eexists. eexists. eexists. split; [|split; [|split]].
  - apply generate_ecr_bash_script_run; eassumption.
  - apply generate_terraform_var_files_run; eassumption.
  - apply ecr_document_pushes.
  - now rewrite image_uri_line_image.
Qed.

Lemma pushed_image_is_lambda_image_witness :
  exists script first second,
    generate_ecr_bash_script no_repr project_myimg (mkArgs "demo")
      global_ireland empty_world
      = (Return tt,
         extend empty_world [(INFO, ecr_record)]
           [(ecr_path (mkArgs "demo"), script)]) /\
    generate_terraform_var_files no_repr project_myimg (mkArgs "demo")
      global_ireland empty_world
      = (Return tt,
         extend empty_world []
           [(buckets_path (mkArgs "demo"), first);
            (lambda_path (mkArgs "demo"), second)]) /\
    suffix_of
      "docker push 123456789012.dkr.ecr.eu-west-1.amazonaws.com/myimg:latest"
      script /\
    second =
    (first ++ "image_uri = " ++ dq ++
     "123456789012.dkr.ecr.eu-west-1.amazonaws.com/myimg:latest" ++ dq)%string.
Proof.
  exact (pushed_image_is_lambda_image no_repr project_myimg (mkArgs "demo")
           global_ireland empty_world
           (VStr "b1") (VStr "b2") (VStr "b3")
           (VStr "123456789012") (VStr "eu-west-1") (VStr "myimg")
           eq_refl eq_refl eq_refl eq_refl eq_refl eq_refl).
Defined.

Lemma provider_document_region reg :
  infix ("  region = " ++ dq ++ reg ++ dq ++ nl)%string (provider_document reg).
Proof. unfold provider_document. find_infix. Qed.

(** * Properties of the writes *)

(** ** One write *)

Lemma fs_write_file_run os_open path text w :
  Fs.write_file os_open path text w =
  match os_open w path with
  | Some e => (Raise e, w)
  | None => (Return tt, extend w [] [(path, text)])
  end.
Proof.
  unfold Fs.write_file, extend. destruct (os_open w path); [reflexivity|].
  now rewrite app_nil_r.
Qed.

Lemma fs_write_file_opens os_open path text w :
  os_open w path = None ->
  Fs.write_file os_open path text w = write_file path text w.
Proof. intros H. unfold Fs.write_file, write_file. now rewrite H. Qed.

(** ** The renderers where every file opens *)

Lemma fs_write_provider_files_opens os_open dir_path document dirs :
  (forall w p, os_open w p = None) ->
  forall w,
    Fs.write_provider_files os_open dir_path document dirs w
    = write_provider_files dir_path document dirs w.
Proof.
  intros Hopen. induction dirs as [|dir rest IH]; intros w; [reflexivity|].
  cbn [Fs.write_provider_files write_provider_files].
  unfold bind, os_path_abspath.
  rewrite fs_write_file_opens by apply Hopen.
  destruct (write_file _ _ w) as [[[]|e] w1]; [apply IH | reflexivity].
Qed.

(** Where every file opens, the functions of [Fs] are the renderers of the
    first part. *)
Lemma fs_renderers_agree py_repr os_open cfg a cfg_global w :
  (forall w' p, os_open w' p = None) ->
  Fs.generate_ecr_bash_script py_repr os_open cfg a cfg_global w
    = generate_ecr_bash_script py_repr cfg a cfg_global w /\
  Fs.generate_terraform_var_files py_repr os_open cfg a cfg_global w
    = generate_terraform_var_files py_repr cfg a cfg_global w /\
  Fs.generate_terraform_provider_config py_repr os_open a cfg_global w
    = generate_terraform_provider_config py_repr a cfg_global w.
Proof.
  intros Hopen. split; [|split].
  - unfold Fs.generate_ecr_bash_script, generate_ecr_bash_script, bind, lift.
    destruct (logger_info _ w) as [[[]|e] w1]; [|reflexivity].
    destruct (getitem cfg_global "account_id"); [|reflexivity].
    destruct (getitem cfg_global "region"); [|reflexivity].
    destruct (getitem cfg "docker_image_name"); [|reflexivity].
    apply fs_write_file_opens, Hopen.
  - unfold Fs.generate_terraform_var_files, generate_terraform_var_files,
      bind, lift.
    destruct (getitem cfg "store_bucket"); [|reflexivity].
    destruct (getitem cfg "site_bucket"); [|reflexivity].
    destruct (getitem cfg "data_bucket"); [|reflexivity].
    destruct (getitem cfg_global "account_id"); [|reflexivity].
    destruct (getitem cfg_global "region"); [|reflexivity].
    destruct (getitem cfg "docker_image_name"); [|reflexivity].
    cbn [combine Fs.write_each write_each]. unfold bind.
    rewrite fs_write_file_opens by apply Hopen.
    destruct (write_file _ _ w) as [[[]|e] w1]; [|reflexivity].
    rewrite fs_write_file_opens by apply Hopen.
    reflexivity.
  - unfold Fs.generate_terraform_provider_config,
      generate_terraform_provider_config, bind, lift.
    destruct (getitem cfg_global "region"); [|reflexivity].
    destruct (os_listdir _ w) as [[dirs|e] w1]; [|reflexivity].
    now apply fs_write_provider_files_opens.
Qed.

(** ** The project configuration file *)

(** X8. [generate_project_config] opens project_config.yml once.  If the
    open fails it raises that error and writes nothing.  Otherwise it writes
    the dump of one config: the project config as it is when there is no
    global config or an empty one, and else the merged config, in which a key
    has the global value when the global config holds it and the project's
    otherwise, and whose keys are the project's in their order followed by
    those only the global config holds (the project entries followed by the
    global entries when no key is shared). *)
Theorem project_config_file yaml_dump os_open cfg a cfg_global w :
  exists merged,
    Fs.generate_project_config yaml_dump os_open cfg a cfg_global w =
    match os_open w (project_config_path a) with
    | Some e => (Raise e, w)
    | None =>
        (Return tt, extend w [] [(project_config_path a, yaml_dump merged)])
    end /\
    (cfg_global = None \/ cfg_global = Some [] -> merged = cfg) /\
    (forall g,
        cfg_global = Some g -> g <> [] -> dict_wf cfg -> dict_wf g ->
        dict_wf merged /\
        (forall k, lookup merged k =
                   match lookup g k with
                   | Some v => Some v
                   | None => lookup cfg k
                   end) /\
        keys merged =
        keys cfg ++ filter (fun k => negb (contains cfg k)) (keys g) /\
        ((forall k, In k (keys g) -> ~ In k (keys cfg)) -> merged = cfg ++ g)).
Proof.
  exists (match cfg_global with
          | Some g => if truthy (VDict g) then dict_unpack cfg g else cfg
          | None => cfg
          end).
  split; [|split].
  - unfold Fs.generate_project_config. apply fs_write_file_run.
  - intros [-> | ->]; reflexivity.
  - intros g -> Hne Hc Hg. destruct g as [|kv g]; [congruence|].
    cbn [truthy]. unfold dict_unpack. rewrite (update_nil _ Hc).
    split; [|split; [|split]].
    + now apply update_wf.
    + intros k. now apply update_lookup.
    + now apply update_keys.
    + intros Hdis. now apply update_disjoint.
Qed.

Lemma project_config_file_witness :
  Fs.generate_project_config (fun d => String.concat nl (keys d)) opens_all
    project_with_region (mkArgs "demo") (Some global_sample) empty_world
  = (Return tt,
     extend empty_world []
       [(project_config_path (mkArgs "demo"),
         String.concat nl ["site_name"; "region"; "account_id"])]) /\
  Fs.generate_project_config (fun d => String.concat nl (keys d))
    (opens_except (project_config_path (mkArgs "demo"))
       (no_such_file (project_config_path (mkArgs "demo"))))
    project_with_region (mkArgs "demo") (Some global_sample) empty_world
  = (Raise (no_such_file (project_config_path (mkArgs "demo"))), empty_world).
Proof.
  assert (Hc : dict_wf project_with_region)
    by (repeat constructor; simpl; intuition discriminate).
  assert (Hg : dict_wf global_sample)
    by (repeat constructor; simpl; intuition discriminate).
  split.
  - destruct (project_config_file (fun d => String.concat nl (keys d)) opens_all
                project_with_region (mkArgs "demo") (Some global_sample)
                empty_world) as [merged [Hrun [_ Hmerged]]].
    destruct (Hmerged global_sample eq_refl) as [_ [_ [Hkeys _]]];
      [discriminate | assumption | assumption |].
    rewrite Hrun. cbn [opens_all]. rewrite Hkeys. reflexivity.
  - destruct (project_config_file (fun d => String.concat nl (keys d))
                (opens_except (project_config_path (mkArgs "demo"))
                   (no_such_file (project_config_path (mkArgs "demo"))))
                project_with_region (mkArgs "demo") (Some global_sample)
                empty_world) as [merged [Hrun _]].
    rewrite Hrun. reflexivity.
Defined.

(** ** The variable files, one after the other *)

Lemma fs_generate_terraform_var_files_run py_repr os_open cfg a cfg_global w
    sb sib db acc reg img :
  lookup cfg "store_bucket" = Some sb ->
  lookup cfg "site_bucket" = Some sib ->
  lookup cfg "data_bucket" = Some db ->
  lookup cfg_global "account_id" = Some acc ->
  lookup cfg_global "region" = Some reg ->
  lookup cfg "docker_image_name" = Some img ->
  exists first second,
    Fs.generate_terraform_var_files py_repr os_open cfg a cfg_global w =
    match os_open w (buckets_path a) with
    | Some e => (Raise e, w)
    | None =>
        match os_open (extend w [] [(buckets_path a, first)]) (lambda_path a) with
        | Some e => (Raise e, extend w [] [(buckets_path a, first)])
        | None =>
            (Return tt,
             extend w [] [(buckets_path a, first); (lambda_path a, second)])
        end
    end.
Proof.
  intros Hsb Hsib Hdb Hacc Hreg Himg.
  exists (buckets_document (format_value py_repr sb) (format_value py_repr sib)
            (format_value py_repr db)).
  exists (buckets_document (format_value py_repr sb) (format_value py_repr sib)
            (format_value py_repr db)
          ++ image_uri_line (format_value py_repr acc) (format_value py_repr reg)
               (format_value py_repr img))%string.
  unfold Fs.generate_terraform_var_files, bind, lift, getitem.
  rewrite Hsb, Hsib, Hdb, Hacc, Hreg, Himg.
  cbn [combine Fs.write_each]. unfold bind.
  rewrite fs_write_file_run. fold (buckets_path a).
  destruct (os_open w (buckets_path a)); [reflexivity|].
  rewrite fs_write_file_run. fold (lambda_path a).
  destruct (os_open _ (lambda_path a)); [reflexivity|].
  unfold ret. rewrite extend_extend. reflexivity.
Qed.

(** X14. [generate_terraform_var_files] reads its six keys before it opens
    a file: a missing key raises the KeyError of the first one missing (the
    three bucket names, then account_id and region of the global config, then
    docker_image_name) with the world untouched, so no file is written even
    when only a key of the lambda file is missing.  With all keys there it
    opens and writes the buckets file, then the lambda file: if the first open
    fails nothing is written; if the second fails the buckets file stays
    written; otherwise both are. *)
Theorem var_files_written_in_turn py_repr os_open cfg a cfg_global w :
  match first_absent cfg ["store_bucket"; "site_bucket"; "data_bucket"],
        first_absent cfg_global ["account_id"; "region"],
        first_absent cfg ["docker_image_name"] with
  | Some k, _, _ | None, Some k, _ | None, None, Some k =>
      Fs.generate_terraform_var_files py_repr os_open cfg a cfg_global w
      = (Raise (Exc KeyError [Subst k]), w)
  | None, None, None =>
      exists first second,
        Fs.generate_terraform_var_files py_repr os_open cfg a cfg_global w =
        match os_open w (buckets_path a) with
        | Some e => (Raise e, w)
        | None =>
            match os_open (extend w [] [(buckets_path a, first)])
                    (lambda_path a) with
            | Some e => (Raise e, extend w [] [(buckets_path a, first)])
            | None =>
                (Return tt,
                 extend w [] [(buckets_path a, first); (lambda_path a, second)])
            end
        end
  end.
Proof.
  unfold first_absent. cbn [find]. rewrite !contains_lookup.
  destruct (lookup cfg "store_bucket") as [sb|] eqn:Hsb; cbn [negb];
    [|unfold Fs.generate_terraform_var_files, bind, lift, getitem;
      rewrite Hsb; reflexivity].
  destruct (lookup cfg "site_bucket") as [sib|] eqn:Hsib; cbn [negb];
    [|unfold Fs.generate_terraform_var_files, bind, lift, getitem;
      rewrite Hsb, Hsib; reflexivity].
  destruct (lookup cfg "data_bucket") as [db|] eqn:Hdb; cbn [negb];
    [|unfold Fs.generate_terraform_var_files, bind, lift, getitem;
      rewrite Hsb, Hsib, Hdb; reflexivity].
  destruct (lookup cfg_global "account_id") as [acc|] eqn:Hacc; cbn [negb];
    [|unfold Fs.generate_terraform_var_files, bind, lift, getitem;
      rewrite Hsb, Hsib, Hdb, Hacc; reflexivity].
  destruct (lookup cfg_global "region") as [reg|] eqn:Hreg; cbn [negb];
    [|unfold Fs.generate_terraform_var_files, bind, lift, getitem;
      rewrite Hsb, Hsib, Hdb, Hacc, Hreg; reflexivity].
  destruct (lookup cfg "docker_image_name") as [img|] eqn:Himg; cbn [negb];
    [|unfold Fs.generate_terraform_var_files, bind, lift, getitem;
      rewrite Hsb, Hsib, Hdb, Hacc, Hreg, Himg; reflexivity].
  eapply fs_generate_terraform_var_files_run; eassumption.
Qed.

Lemma var_files_written_in_turn_witness :
  exists first,
    Fs.generate_terraform_var_files no_repr
      (opens_except (lambda_path (mkArgs "demo"))
         (no_such_file (lambda_path (mkArgs "demo"))))
      project_myimg (mkArgs "demo") global_ireland empty_world
    = (Raise (no_such_file (lambda_path (mkArgs "demo"))),
       extend empty_world [] [(buckets_path (mkArgs "demo"), first)]) /\
    lines first = sample_bucket_lines.
Proof.
  pose proof (var_files_written_in_turn no_repr
                (opens_except (lambda_path (mkArgs "demo"))
                   (no_such_file (lambda_path (mkArgs "demo"))))
                project_myimg (mkArgs "demo") global_ireland empty_world) as H.
  cbv beta iota zeta delta [first_absent find contains keys existsb map fst
    negb project_myimg global_ireland String.eqb Ascii.eqb Bool.eqb orb] in H.
  destruct H as [first [second H]].
  exists first. split; [exact H|].
  vm_compute in H. inversion H; subst. reflexivity.
Defined.

(** ** The provider files, entry by entry *)

Lemma fs_write_provider_files_all os_open a text dirs :
  forall w,
    (forall w' d, In d dirs -> os_open w' (provider_path w a d) = None) ->
    Fs.write_provider_files os_open (tf_dir a) text dirs w
    = (Return tt, extend w [] (provider_files w a text dirs)).
Proof.
  induction dirs as [|dir rest IH]; intros w Hopen.
  - simpl. unfold ret. now rewrite extend_nil.
  - cbn [Fs.write_provider_files]. unfold bind, os_path_abspath.
    rewrite fs_write_file_run.
    change (abspath w (tf_dir a ++ dir) ++ "/provider.tf")%string
      with (provider_path w a dir).
    rewrite (Hopen w dir) by now left.
    rewrite IH.
    + rewrite extend_extend. reflexivity.
    + intros w' d Hin. apply (Hopen w' d). now right.
Qed.

Lemma fs_write_provider_files_until os_open a text ok bad rest e :
  forall w,
    (forall w' d, In d ok -> os_open w' (provider_path w a d) = None) ->
    (forall w', os_open w' (provider_path w a bad) = Some e) ->
    Fs.write_provider_files os_open (tf_dir a) text (ok ++ bad :: rest) w
    = (Raise e, extend w [] (provider_files w a text ok)).
Proof.
  induction ok as [|dir ok IH]; intros w Hopen Hbad.
  - cbn [app Fs.write_provider_files]. unfold bind, os_path_abspath.
    rewrite fs_write_file_run.
    change (abspath w (tf_dir a ++ bad) ++ "/provider.tf")%string
      with (provider_path w a bad).
    rewrite Hbad. simpl. now rewrite extend_nil.
  - cbn [app Fs.write_provider_files]. unfold bind, os_path_abspath.
    rewrite fs_write_file_run.
    change (abspath w (tf_dir a ++ dir) ++ "/provider.tf")%string
      with (provider_path w a dir).
    rewrite (Hopen w dir) by now left.
    rewrite IH.
    + rewrite extend_extend. reflexivity.
    + intros w' d Hin. apply (Hopen w' d). now right.
    + intros w'. apply (Hbad w').
Qed.

Lemma fs_generate_terraform_provider_config_run py_repr os_open a cfg_global w :
  Fs.generate_terraform_provider_config py_repr os_open a cfg_global w =
  match lookup cfg_global "region" with
  | None => (Raise (Exc KeyError [Subst "region"]), w)
  | Some reg =>
      match listdir w (tf_dir a) with
      | None => (Raise (Exc FileNotFoundError [Subst (tf_dir a)]), w)
      | Some dirs =>
          Fs.write_provider_files os_open (tf_dir a)
            (provider_document (format_value py_repr reg)) dirs w
      end
  end.
Proof.
  unfold Fs.generate_terraform_provider_config, bind, lift, getitem, os_listdir.
  destruct (lookup cfg_global "region") as [reg|]; [|reflexivity].
  fold (tf_dir a).
  destruct (listdir w (tf_dir a)) as [dirs|]; reflexivity.
Qed.

(** X18. [generate_terraform_provider_config] reads the region before it
    lists the terraform directory: without a region it raises
    KeyError(region) whether or not the directory exists; with a region but
    no directory it raises FileNotFoundError; in both cases the world is
    untouched.  Otherwise it goes through the entries of the directory in the
    order of the listing and opens a provider.tf under each, writing the one
    text that declares the configured region.  Where all of them open it
    writes one file for each entry, none for an empty directory.  At the
    first that does not open, as under an entry that is a plain file, it
    raises the error of that open: the files of the entries before it stay
    written and those of the entries after it are not written. *)
Theorem provider_files_until_failure py_repr os_open a cfg_global w :
  (lookup cfg_global "region" = None ->
   Fs.generate_terraform_provider_config py_repr os_open a cfg_global w
   = (Raise (Exc KeyError [Subst "region"]), w)) /\
  (forall reg,
      lookup cfg_global "region" = Some reg ->
      listdir w (tf_dir a) = None ->
      Fs.generate_terraform_provider_config py_repr os_open a cfg_global w
      = (Raise (Exc FileNotFoundError [Subst (tf_dir a)]), w)) /\
  (forall reg dirs,
      lookup cfg_global "region" = Some reg ->
      listdir w (tf_dir a) = Some dirs ->
      exists text,
        infix ("  region = " ++ dq ++ format_value py_repr reg ++ dq ++ nl)%string
          text /\
        ((forall w' d, In d dirs -> os_open w' (provider_path w a d) = None) ->
         Fs.generate_terraform_provider_config py_repr os_open a cfg_global w
         = (Return tt, extend w [] (provider_files w a text dirs))) /\
        (forall ok bad rest e,
            dirs = ok ++ bad :: rest ->
            (forall w' d, In d ok -> os_open w' (provider_path w a d) = None) ->
            (forall w', os_open w' (provider_path w a bad) = Some e) ->
            Fs.generate_terraform_provider_config py_repr os_open a cfg_global w
            = (Raise e, extend w [] (provider_files w a text ok)))).
Proof.
  rewrite fs_generate_terraform_provider_config_run.
  split; [|split].
  - now intros ->.
  - now intros reg -> ->.
  - intros reg dirs -> ->.
    exists (provider_document (format_value py_repr reg)).
    split; [apply provider_document_region|]. split.
    + intros Hopen. now apply fs_write_provider_files_all.
    + intros ok bad rest e -> Hopen Hbad.
      now apply fs_write_provider_files_until.
Qed.

Lemma provider_files_until_failure_witness :
  exists text,
    infix ("  region = " ++ dq ++ "us-east-1" ++ dq ++ nl)%string text /\
    Fs.generate_terraform_provider_config no_repr opens_all (mkArgs "demo")
      global_sample world_with_dirs
    = (Return tt,
       extend world_with_dirs []
         [("/repo/demo/terraform/buckets/provider.tf", text);
          ("/repo/demo/terraform/lambda/provider.tf", text)]) /\
    Fs.generate_terraform_provider_config no_repr
      (opens_except "/repo/demo/terraform/notes.txt/provider.tf"
         (not_a_directory "/repo/demo/terraform/notes.txt/provider.tf"))
      (mkArgs "demo") global_sample world_with_notes
    = (Raise (not_a_directory "/repo/demo/terraform/notes.txt/provider.tf"),
       extend world_with_notes []
         [("/repo/demo/terraform/buckets/provider.tf", text)]).
Proof.
  destruct (provider_files_until_failure no_repr opens_all (mkArgs "demo")
              global_sample world_with_dirs) as [_ [_ Hdirs]].
  destruct (Hdirs (VStr "us-east-1") ["buckets"; "lambda"] eq_refl eq_refl)
    as [text [Hin [Hall _]]].
  destruct (provider_files_until_failure no_repr
              (opens_except "/repo/demo/terraform/notes.txt/provider.tf"
                 (not_a_directory "/repo/demo/terraform/notes.txt/provider.tf"))
              (mkArgs "demo") global_sample world_with_notes) as [_ [_ Hnotes]].
  destruct (Hnotes (VStr "us-east-1") ["buckets"; "notes.txt"; "lambda"]
              eq_refl eq_refl) as [text' [_ [_ Hbad]]].
  exists text. split; [exact Hin|]. split.
  - apply Hall. reflexivity.
  - assert (Etext : text' = text).
    { specialize (Hbad ["buckets"] "notes.txt" ["lambda"]
                    (not_a_directory "/repo/demo/terraform/notes.txt/provider.tf")
                    eq_refl).
      assert (H1 := Hall (fun _ _ _ => eq_refl)).
      assert (H2 : forall w' d, In d ["buckets"] ->
                opens_except "/repo/demo/terraform/notes.txt/provider.tf"
                  (not_a_directory "/repo/demo/terraform/notes.txt/provider.tf")
                  w' (provider_path world_with_notes (mkArgs "demo") d) = None)
        by (intros w' d [<- | []]; reflexivity).
      specialize (Hbad H2 (fun _ => eq_refl)).
      vm_compute in H1, Hbad. inversion H1. inversion Hbad. congruence. }
    rewrite <- Etext.
    apply (Hbad ["buckets"] "notes.txt" ["lambda"]).
    + reflexivity.
    + intros w' d [<- | []]. reflexivity.
    + intros w'. reflexivity.
Defined.

(** ** Steps 7 to 9 *)

Lemma fs_generate_ecr_bash_script_run py_repr os_open cfg a cfg_global w
    img acc reg :
  lookup cfg "docker_image_name" = Some img ->
  lookup cfg_global "account_id" = Some acc ->
  lookup cfg_global "region" = Some reg ->
  exists script,
    Fs.generate_ecr_bash_script py_repr os_open cfg a cfg_global w =
    match os_open (log_extend w [(INFO, ecr_record)]) (ecr_path a) with
    | Some e => (Raise e, log_extend w [(INFO, ecr_record)])
    | None =>
        (Return tt, extend w [(INFO, ecr_record)] [(ecr_path a, script)])
    end.
Proof.
  intros Himg Hacc Hreg.
  exists (ecr_document (format_value py_repr img) (format_value py_repr reg)
            (registry_endpoint (format_value py_repr acc)
               (format_value py_repr reg))).
  unfold Fs.generate_ecr_bash_script, bind, lift, getitem, logger_info, emit.
  rewrite Hacc, Hreg, Himg.
  fold (log_extend w [(INFO, ecr_record)]).
  rewrite fs_write_file_run. fold (ecr_path a).
  destruct (os_open _ (ecr_path a)); [reflexivity|].
  unfold extend, log_extend. cbn [log files listdir abspath].
  now rewrite app_nil_r.
Qed.

Lemma checked_lookups cfg_global cfg a w0 :
  succeeds (main_program_checks cfg_global cfg a) w0 ->
  exists sb sib db acc reg img,
    lookup cfg "store_bucket" = Some sb /\
    lookup cfg "site_bucket" = Some sib /\
    lookup cfg "data_bucket" = Some db /\
    lookup cfg_global "account_id" = Some acc /\
    lookup cfg_global "region" = Some reg /\
    lookup cfg "docker_image_name" = Some img.
Proof.
  intros Hs. destruct (main_program_checks_inv _ _ _ _ Hs) as [Hg Hp].
  destruct (lookup_present cfg "store_bucket") as [sb Hsb];
    [apply Hp; simpl; tauto|].
  destruct (lookup_present cfg "site_bucket") as [sib Hsib];
    [apply Hp; simpl; tauto|].
  destruct (lookup_present cfg "data_bucket") as [db Hdb];
    [apply Hp; simpl; tauto|].
  destruct (lookup_present cfg "docker_image_name") as [img Himg];
    [apply Hp; simpl; tauto|].
  destruct (lookup_present cfg_global "account_id") as [acc Hacc];
    [apply Hg; simpl; tauto|].
  destruct (lookup_present cfg_global "region") as [reg Hreg];
    [apply Hg; simpl; tauto|].
  exists sb, sib, db, acc, reg, img. tauto.
Qed.



(** X16. Nothing is rolled back.  With checked configs, when the build
    script opens but the buckets variable file does not, as in a project
    without its terraform directories, steps 7 to 9 stop at step 8 with the
    error of that open: the build script stays written, no variable file is
    written, and the provider step is not reached. *)
Theorem failed_variable_file_leaves_build_script
    py_repr os_open cfg_global cfg a w0 w e :
  succeeds (main_program_checks cfg_global cfg a) w0 ->
  (forall w', os_open w' (ecr_path a) = None) ->
  (forall w', os_open w' (buckets_path a) = Some e) ->
  exists script,
    Fs.main_program_render py_repr os_open cfg a cfg_global w =
    (Raise e, extend w [(INFO, ecr_record)] [(ecr_path a, script)]).
Proof.
  intros Hs Hscript Hbuckets.
  destruct (checked_lookups _ _ _ _ Hs)
    as [sb [sib [db [acc [reg [img [Hsb [Hsib [Hdb [Hacc [Hreg Himg]]]]]]]]]]].
  destruct (fs_generate_ecr_bash_script_run py_repr os_open cfg a cfg_global w
              _ _ _ Himg Hacc Hreg) as [script Hecr].
  rewrite Hscript in Hecr.
  destruct (fs_generate_terraform_var_files_run py_repr os_open cfg a cfg_global
              (extend w [(INFO, ecr_record)] [(ecr_path a, script)])
              _ _ _ _ _ _ Hsb Hsib Hdb Hacc Hreg Himg) as [first [second Hvar]].
  rewrite Hbuckets in Hvar.
  exists script. unfold Fs.main_program_render, bind. now rewrite Hecr, Hvar.
Qed.

Lemma failed_variable_file_leaves_build_script_witness :
  exists script,
    Fs.main_program_render no_repr
      (opens_except (buckets_path (mkArgs "demo"))
         (no_such_file (buckets_path (mkArgs "demo"))))
      project_empty_prefix (mkArgs "demo") global_sample empty_world =
    (Raise (no_such_file (buckets_path (mkArgs "demo"))),
     extend empty_world [(INFO, ecr_record)]
       [(ecr_path (mkArgs "demo"), script)]).
Proof.
  apply (failed_variable_file_leaves_build_script no_repr
           (opens_except (buckets_path (mkArgs "demo"))
              (no_such_file (buckets_path (mkArgs "demo"))))
           global_sample project_empty_prefix (mkArgs "demo") empty_world
           empty_world).
  - eexists. reflexivity.
  - intros w'. reflexivity.
  - intros w'. reflexivity.
Defined.
